(** * TranscriptFetch: a Flask service that serves YouTube captions as JSON

    Shallow embedding of [TranscriptFetch.py].  Python values are a small
    inductive type of JSON-shaped data, exceptions are explicit results, and
    the request handlers run in a monad that threads the module globals and
    records the calls made to the outside world. *)

From Stdlib Require Import ZArith List String Ascii Bool Lia.
From Stdlib Require Import Floats.SpecFloat.
Import ListNotations.
Open Scope string_scope.
Open Scope list_scope.
Set Warnings "-register-all".

(** ** Python strings *)

Module PyStr.

(** [str.lower] on the ASCII range: only A-Z change.  Code points outside
    ASCII are left as they are; none of them lowers to an ASCII letter of
    the word [true], the only text this program compares a lowered string
    with. *)
Definition lower_char (c : ascii) : ascii :=
  let n := nat_of_ascii c in
  if (65 <=? n)%nat && (n <=? 90)%nat then ascii_of_nat (n + 32) else c.

Fixpoint lower (s : string) : string :=
  match s with
  | EmptyString => EmptyString
  | String c s' => String (lower_char c) (lower s')
  end.

Definition nonempty (s : string) : bool :=
  match s with EmptyString => false | String _ _ => true end.

(** [sep.join(parts)] *)
Fixpoint join (sep : string) (parts : list string) : string :=
  match parts with
  | [] => EmptyString
  | [p] => p
  | p :: rest => p ++ sep ++ join sep rest
  end.

(** [s.replace(old, new)]: occurrences of [old] are replaced from the left
    and do not overlap.  [skip] counts the characters of a matched
    occurrence that are still to be dropped. *)
Fixpoint replace_from (old new : string) (skip : nat) (s : string) : string :=
  match s with
  | EmptyString => EmptyString
  | String c s' =>
      match skip with
      | S k => replace_from old new k s'
      | O =>
          if prefix old s
          then new ++ replace_from old new (length old - 1) s'
          else String c (replace_from old new 0 s')
      end
  end.

(** With an empty [old], Python inserts [new] before every character and
    at the end. *)
Fixpoint interleave (new s : string) : string :=
  match s with
  | EmptyString => EmptyString
  | String c s' => String c (new ++ interleave new s')
  end.

Definition replace (old new s : string) : string :=
  match old with
  | EmptyString => new ++ interleave new s
  | String _ _ => replace_from old new 0 s
  end.

(** [c in s] for a single character *)
Fixpoint mem_char (c : ascii) (s : string) : bool :=
  match s with
  | EmptyString => false
  | String c' s' => Ascii.eqb c c' || mem_char c s'
  end.

Definition newline : string := String "010"%char EmptyString.

End PyStr.

(** ** Python values and exceptions *)

(** The values that reach this program: what a JSON document decodes to.
    A dict keeps its keys in insertion order. *)
Inductive pyval : Type :=
| PNone
| PBool (b : bool)
| PInt (z : Z)
| PFloat (f : spec_float)
| PStr (s : string)
| PList (l : list pyval)
| PDict (d : list (string * pyval)).

Inductive exc_class : Type :=
| KeyError
| AttributeError
| TypeError
| ValueError
| IndexError
| LibraryError (name : string).

(** An instance of a subclass of [Exception]; [exc_str] is [str(e)]. *)
Record exn : Type := mk_exn { exc_type : exc_class; exc_str : string }.

Inductive result (A : Type) : Type :=
| Ok (a : A)
| Raise (e : exn).
Arguments Ok {A} a.
Arguments Raise {A} e.

Definition rbind {A B} (r : result A) (f : A -> result B) : result B :=
  match r with
  | Ok a => f a
  | Raise e => Raise e
  end.

Declare Scope result_scope.
Delimit Scope result_scope with result.
Notation "x <- r ;; k" := (rbind r (fun x => k))
  (at level 61, r at next level, right associativity) : result_scope.

Module Py.

Definition type_name (v : pyval) : string :=
  match v with
  | PNone => "NoneType"
  | PBool _ => "bool"
  | PInt _ => "int"
  | PFloat _ => "float"
  | PStr _ => "str"
  | PList _ => "list"
  | PDict _ => "dict"
  end.

(** Truth value of an object, as tested by [if x] and [not x]. *)
Definition truthy (v : pyval) : bool :=
  match v with
  | PNone => false
  | PBool b => b
  | PInt z => negb (Z.eqb z 0)
  | PFloat f => match f with S754_zero _ => false | _ => true end
  | PStr s => PyStr.nonempty s
  | PList l => match l with [] => false | _ => true end
  | PDict d => match d with [] => false | _ => true end
  end.

Fixpoint assoc {A} (k : string) (d : list (string * A)) : option A :=
  match d with
  | [] => None
  | (k', v) :: d' => if String.eqb k k' then Some v else assoc k d'
  end.

Definition quoted (s : string) : string := "'" ++ s ++ "'".

(** [v.get(k, dflt)]: only a dict has the method. *)
Definition get (v : pyval) (k : string) (dflt : pyval) : result pyval :=
  match v with
  | PDict d =>
      Ok (match assoc k d with Some x => x | None => dflt end)
  | _ =>
      Raise (mk_exn AttributeError
               (quoted (type_name v) ++ " object has no attribute 'get'"))
  end.

(** Message texts of subscription errors are those of CPython 3.11 and
    later. *)
Definition not_subscriptable (v : pyval) : exn :=
  mk_exn TypeError (quoted (type_name v) ++ " object is not subscriptable").

(** [v[k]] with a string key [k]. *)
Definition getitem (v : pyval) (k : string) : result pyval :=
  match v with
  | PDict d =>
      match assoc k d with
      | Some x => Ok x
      | None => Raise (mk_exn KeyError (quoted k))
      end
  | PList _ =>
      Raise (mk_exn TypeError "list indices must be integers or slices, not str")
  | PStr _ =>
      Raise (mk_exn TypeError "string indices must be integers, not 'str'")
  | _ => Raise (not_subscriptable v)
  end.

Fixpoint last_char (s : string) : option ascii :=
  match s with
  | EmptyString => None
  | String c EmptyString => Some c
  | String _ s' => last_char s'
  end.

(** [v[-1]] *)
Definition getitem_last (v : pyval) : result pyval :=
  match v with
  | PList l =>
      match rev l with
      | x :: _ => Ok x
      | [] => Raise (mk_exn IndexError "list index out of range")
      end
  | PStr s =>
      match last_char s with
      | Some c => Ok (PStr (String c EmptyString))
      | None => Raise (mk_exn IndexError "string index out of range")
      end
  | PDict _ => Raise (mk_exn KeyError "-1")
  | _ => Raise (not_subscriptable v)
  end.

Fixpoint chars (s : string) : list pyval :=
  match s with
  | EmptyString => []
  | String c s' => PStr (String c EmptyString) :: chars s'
  end.

(** The items a [for] loop over [v] visits. *)
Definition iter (v : pyval) : result (list pyval) :=
  match v with
  | PList l => Ok l
  | PDict d => Ok (map (fun kv => PStr (fst kv)) d)
  | PStr s => Ok (chars s)
  | _ => Raise (mk_exn TypeError (quoted (type_name v) ++ " object is not iterable"))
  end.

(** [v == s] for a string [s] *)
Definition eq_str (v : pyval) (s : string) : bool :=
  match v with
  | PStr s' => String.eqb s' s
  | _ => false
  end.

End Py.

(** ** What the program calls and does not define *)

(** An [xml.etree.ElementTree.Element]: tag, attributes, the text before the
    first child, and the children in document order. *)
Inductive element : Type :=
| Element (tag : string) (attrib : list (string * string))
          (text : option string) (children : list element).

Definition tag (e : element) : string :=
  match e with Element t _ _ _ => t end.
Definition attrib (e : element) : list (string * string) :=
  match e with Element _ a _ _ => a end.
Definition text (e : element) : option string :=
  match e with Element _ _ t _ => t end.
Definition children (e : element) : list element :=
  match e with Element _ _ _ c => c end.

(** [root.findall(name)] with a plain tag name: the direct children that
    carry the tag, in document order. *)
Definition findall (name : string) (root : element) : list element :=
  filter (fun c => String.eqb (tag c) name) (children root).

(** An [innertube.InnerTube] client. *)
Record client : Type := { player : string -> result pyval }.

(** The libraries and the network as the handler sees them: each call
    returns a value or raises.  [requests_get url] stands for
    [requests.get(url).text], [float_of_str] for the builtin [float] on a
    string. *)
Record world : Type := {
  InnerTube : string -> result client;
  requests_get : pyval -> result string;
  ET_fromstring : string -> result element;
  float_of_str : string -> result spec_float
}.

(** [float(0)] *)
Definition float_zero : spec_float := S754_zero false.

(** ** Flask: requests, responses, the handler monad *)

Inductive http_method : Type := GET | HEAD | OPTIONS | POST | PUT | DELETE | PATCH.

Definition http_method_eqb (a b : http_method) : bool :=
  match a, b with
  | GET, GET | HEAD, HEAD | OPTIONS, OPTIONS | POST, POST
  | PUT, PUT | DELETE, DELETE | PATCH, PATCH => true
  | _, _ => false
  end.

Record request : Type := {
  method : http_method;
  path : string;
  headers : list (string * string);
  args : list (string * string)
}.

(** [request.headers.get(name)]: header names compare without case; the
    first field of that name is returned. *)
Fixpoint headers_get (h : list (string * string)) (name : string) : option string :=
  match h with
  | [] => None
  | (k, v) :: h' =>
      if String.eqb (PyStr.lower k) (PyStr.lower name) then Some v
      else headers_get h' name
  end.

(** [request.args.get(name)] *)
Definition args_get (req : request) (name : string) : option string :=
  Py.assoc name (args req).

Inductive payload : Type :=
| Json (v : pyval)
| ErrorPage
| Empty.

Record response : Type := { body : payload; status : Z }.

(** [jsonify(d)] alone answers with status 200; [jsonify(d), code] with
    [code]. *)
Definition jsonify (d : list (string * pyval)) (code : Z) : response :=
  {| body := Json (PDict d); status := code |}.

(** The module-level variables of the program. *)
Record globals : Type := { API_KEY : option string }.

(** What a run does besides answering. *)
Inductive event : Type :=
| EvView (endpoint : string)
| EvInnerTube (client_name : string)
| EvPlayer (video_id : string)
| EvRequestsGet (url : pyval)
| EvLogError (msg : string).

(** A computation reads and may write the globals, records events, and
    returns or raises. *)
Definition M (A : Type) : Type := globals -> result A * globals * list event.

Definition ret {A} (a : A) : M A := fun g => (Ok a, g, []).

Definition bind {A B} (m : M A) (f : A -> M B) : M B :=
  fun g =>
    match m g with
    | (Ok a, g1, t1) =>
        match f a g1 with
        | (r, g2, t2) => (r, g2, t1 ++ t2)
        end
    | (Raise e, g1, t1) => (Raise e, g1, t1)
    end.

Definition lift {A} (r : result A) : M A := fun g => (r, g, []).

Definition emit (ev : event) : M unit := fun g => (Ok tt, g, [ev]).

Definition read_globals : M globals := fun g => (Ok g, g, []).

(** [try: m  except Exception as e: h e] *)
Definition try_except {A} (m : M A) (h : exn -> M A) : M A :=
  fun g =>
    match m g with
    | (Raise e, g1, t1) =>
        match h e g1 with
        | (r, g2, t2) => (r, g2, t1 ++ t2)
        end
    | done => done
    end.

Declare Scope handler_scope.
Delimit Scope handler_scope with handler.
Notation "x <- m ;; k" := (bind m (fun x => k))
  (at level 61, m at next level, right associativity) : handler_scope.
Notation "m ;; k" := (bind m (fun _ => k))
  (at level 61, right associativity) : handler_scope.

(** A call that leaves the process. *)
Definition call {A} (ev : event) (r : result A) : M A :=
  (emit ev ;; lift r)%handler.

(** ** The program *)

Open Scope Z_scope.

(** [validate_api_key(request)]: the header, or [None] without one, against
    the global [API_KEY], itself [None] when the environment has none. *)
Definition option_string_eqb (a b : option string) : bool :=
  match a, b with
  | Some x, Some y => String.eqb x y
  | None, None => true
  | _, _ => false
  end.

Definition validate_api_key (req : request) : M bool :=
  (g <- read_globals ;;
   let provided_key := headers_get (headers req) "x-api-key" in
   ret (option_string_eqb provided_key (API_KEY g)))%handler.

Definition unauthorized : response :=
  jsonify [("error", PStr "Unauthorized access. Invalid API key.")] 403.

(** [enforce_api_key()], registered with [before_request]: a returned
    response ends the request, [None] lets it go on. *)
Definition enforce_api_key (req : request) : M (option response) :=
  (valid <- validate_api_key req ;;
   if negb valid then ret (Some unauthorized) else ret None)%handler.

(** [home()] *)
Definition home (req : request) : M response :=
  ret (jsonify
    [("message", PStr "Welcome to the YouTube Caption API Service.");
     ("endpoints", PDict
        [("/captions", PDict
           [("description", PStr "Fetch and parse captions for a YouTube video.");
            ("parameters", PDict
               [("video_id", PStr "Required. The YouTube video ID.");
                ("language", PStr "Optional. The language code to fetch captions in a specific language.");
                ("timestamps", PStr "Optional. Set to 'true' to include timestamps in the response.")]);
            ("notes", PStr "If the 'language' parameter is not provided, the API returns available languages for the video.")])]);
     ("status", PStr "API is operational.")] 200).

(** The four video fields every answer of [get_captions] past the metadata
    call carries. *)
Record metadata : Type := {
  video_title : pyval;
  thumbnail : pyval;
  channel_name : pyval;
  channel_logo : pyval
}.

Definition metadata_fields (m : metadata) : list (string * pyval) :=
  [("video_title", video_title m);
   ("thumbnail", thumbnail m);
   ("channel_name", channel_name m);
   ("channel_logo", channel_logo m)].

(** [xs[-1]["url"] if xs else dflt] *)
Definition last_url (xs : pyval) (dflt : string) : result pyval :=
  if Py.truthy xs
  then (x <- Py.getitem_last xs ;; Py.getitem x "url")%result
  else Ok (PStr dflt).

(** Lines 74 to 91: the video fields and the caption tracks out of the
    player response. *)
Definition extract_metadata (player_data : pyval) : result (metadata * pyval) :=
  (video_details <- Py.get player_data "videoDetails" (PDict []) ;;
   video_title <- Py.get video_details "title" (PStr "Unknown Title") ;;
   th <- Py.get video_details "thumbnail" (PDict []) ;;
   thumbnails <- Py.get th "thumbnails" (PList []) ;;
   thumbnail <- last_url thumbnails "No Thumbnail Available" ;;
   channel_name <- Py.get video_details "author" (PStr "Unknown Channel") ;;
   r1 <- Py.get video_details "channelThumbnailSupportedRenderers" (PDict []) ;;
   r2 <- Py.get r1 "channelThumbnailWithLinkRenderer" (PDict []) ;;
   r3 <- Py.get r2 "thumbnail" (PDict []) ;;
   channel_thumbnails <- Py.get r3 "thumbnails" (PList []) ;;
   channel_logo <- last_url channel_thumbnails "No Channel Logo Available" ;;
   c1 <- Py.get player_data "captions" (PDict []) ;;
   c2 <- Py.get c1 "playerCaptionsTracklistRenderer" (PDict []) ;;
   captions <- Py.get c2 "captionTracks" (PList []) ;;
   Ok ({| video_title := video_title; thumbnail := thumbnail;
          channel_name := channel_name; channel_logo := channel_logo |},
       captions))%result.

(** One entry of [available_languages] *)
Definition language_entry (caption : pyval) : result pyval :=
  (code <- Py.getitem caption "languageCode" ;;
   name <- Py.getitem caption "name" ;;
   simple <- Py.getitem name "simpleText" ;;
   Ok (PDict [("languageCode", code); ("name", simple)]))%result.

Fixpoint map_result {A B} (f : A -> result B) (l : list A) : result (list B) :=
  match l with
  | [] => Ok []
  | x :: l' => (y <- f x ;; ys <- map_result f l' ;; Ok (y :: ys))%result
  end.

(** Lines 104 to 110: the list comprehension over [captions]. *)
Definition available_languages (captions : pyval) : result (list pyval) :=
  (tracks <- Py.iter captions ;; map_result language_entry tracks)%result.

(** Lines 121 to 124: [next((c for c in captions if ...), None)]; the
    generator stops at the first track of the language. *)
Fixpoint first_track (tracks : list pyval) (selected_language : string) : result pyval :=
  match tracks with
  | [] => Ok PNone
  | c :: rest =>
      (code <- Py.getitem c "languageCode" ;;
       if Py.eq_str code selected_language then Ok c
       else first_track rest selected_language)%result
  end.

Definition find_caption (captions : pyval) (selected_language : string) : result pyval :=
  (tracks <- Py.iter captions ;; first_track tracks selected_language)%result.

(** One parsed caption: the dict with keys [start], [duration], [text]. *)
Record caption : Type := {
  start : spec_float;
  duration : spec_float;
  caption_text : string
}.

Definition caption_to_py (c : caption) : pyval :=
  PDict [("start", PFloat (start c));
         ("duration", PFloat (duration c));
         ("text", PStr (caption_text c))].

(** [float(e.attrib.get(name, 0))] *)
Definition float_attr (w : world) (e : element) (name : string) : result spec_float :=
  match Py.assoc name (attrib e) with
  | Some s => float_of_str w s
  | None => Ok float_zero
  end.

(** [e.text or ""] *)
Definition text_or_empty (e : element) : string :=
  match text e with
  | Some s => if PyStr.nonempty s then s else ""%string
  | None => ""%string
  end.

Definition parse_text (w : world) (e : element) : result caption :=
  (s <- float_attr w e "start" ;;
   d <- float_attr w e "dur" ;;
   Ok {| start := s; duration := d; caption_text := text_or_empty e |})%result.

(** Lines 141 to 148 *)
Definition parse_captions (w : world) (root : element) : result (list caption) :=
  map_result (parse_text w) (findall "text" root).

(** Lines 163 to 168 *)
Definition concatenate (parsed_captions : list caption) : string :=
  let concatenated_text :=
    PyStr.join " "
      (filter PyStr.nonempty (map caption_text parsed_captions)) in
  let concatenated_text := PyStr.replace "&#39;" " ; " concatenated_text in
  PyStr.replace PyStr.newline "  " concatenated_text.

Definition opt_truthy (o : option string) : bool :=
  match o with
  | Some s => PyStr.nonempty s
  | None => false
  end.

Definition opt_text (o : option string) : string :=
  match o with
  | Some s => s
  | None => ""%string
  end.

(** Line 63 *)
Definition timestamps_flag (req : request) : bool :=
  String.eqb
    (PyStr.lower (match args_get req "timestamps" with
                  | Some s => s
                  | None => "false"%string
                  end))
    "true".

(** The [try] block of [get_captions], lines 69 to 178. *)
Definition get_captions_try (w : world) (video_id : string)
    (selected_language : option string) (timestamps : bool) : M response :=
  (client <- call (EvInnerTube "WEB") (InnerTube w "WEB") ;;
   player_data <- call (EvPlayer video_id) (player client video_id) ;;
   extracted <- lift (extract_metadata player_data) ;;
   let meta := fst extracted in
   let captions := snd extracted in
   if negb (Py.truthy captions) then
     ret (jsonify
            (("error", PStr "No captions available for this video.")
               :: metadata_fields meta) 404)
   else if negb (opt_truthy selected_language) then
     available <- lift (available_languages captions) ;;
     ret (jsonify
            (("video_id", PStr video_id) :: metadata_fields meta
               ++ [("available_languages", PList available)]) 200)
   else
     let language := opt_text selected_language in
     selected_caption <- lift (find_caption captions language) ;;
     if negb (Py.truthy selected_caption) then
       ret (jsonify
              (("error", PStr ("No captions available for the selected language: "
                                 ++ language))
                 :: metadata_fields meta) 404)
     else
       url <- lift (Py.getitem selected_caption "baseUrl") ;;
       raw_captions <- call (EvRequestsGet url) (requests_get w url) ;;
       root <- lift (ET_fromstring w raw_captions) ;;
       parsed_captions <- lift (parse_captions w root) ;;
       if timestamps then
         ret (jsonify
                (("video_id", PStr video_id) :: metadata_fields meta
                   ++ [("languageCode", PStr language);
                       ("timestamped_captions",
                        PList (map caption_to_py parsed_captions))]) 200)
       else
         ret (jsonify
                (("video_id", PStr video_id) :: metadata_fields meta
                   ++ [("languageCode", PStr language);
                       ("captions", PStr (concatenate parsed_captions))]) 200))%handler.

(** The [except Exception as e] clause, lines 180 to 182. *)
Definition get_captions_except (video_id : string) (e : exn) : M response :=
  (emit (EvLogError ("Error while fetching captions for video_id "
                       ++ video_id ++ ": " ++ exc_str e)) ;;
   ret (jsonify [("error", PStr (exc_str e))] 500))%handler.

(** [get_captions()] *)
Definition get_captions (w : world) (req : request) : M response :=
  let video_id := args_get req "video_id" in
  let selected_language := args_get req "language" in
  let timestamps := timestamps_flag req in
  if negb (opt_truthy video_id) then
    ret (jsonify [("error", PStr "Missing video_id parameter")] 400)
  else
    try_except
      (get_captions_try w (opt_text video_id) selected_language timestamps)
      (get_captions_except (opt_text video_id)).

(** ** The application: routes and dispatch *)

(** One rule of the URL map: the rule text, the methods it was registered
    with, and the endpoint that names its view function. *)
Record rule : Type := {
  rule_path : string;
  rule_methods : list http_method;
  endpoint : string
}.

(** The two [@app.route(rule, methods=...)] registrations of the file, in
    source order.  [@app.route('/')] has no [methods] argument and gets
    Flask's default, GET. *)
Definition registered_routes : list rule :=
  [ {| rule_path := "/"; rule_methods := [GET]; endpoint := "home" |};
    {| rule_path := "/captions"; rule_methods := [GET]; endpoint := "get_captions" |} ].

(** The rule that [Flask(__name__)] adds by itself for the files of the
    static folder. *)
Definition static_rule : rule :=
  {| rule_path := "/static/<path:filename>"; rule_methods := [GET];
     endpoint := "static" |}.

(** [app.url_map] once the module is loaded. *)
Definition url_map : list rule := static_rule :: registered_routes.

(** A rule text matches a path that is equal to it; the static rule
    matches [/static/] followed by a file name that is not empty and does
    not begin with a slash. *)
Definition rule_matches (r : rule) (p : string) : bool :=
  if String.eqb (rule_path r) "/static/<path:filename>" then
    prefix "/static/" p
    && match substring 8 1 p with
       | EmptyString => false
       | rest => negb (String.eqb rest "/")
       end
  else String.eqb (rule_path r) p.

(** [send_static_file], the view function of the static rule.  The
    repository has no [static] directory, so no file name is found and the
    answer is Flask's 404 page. *)
Definition send_static_file (req : request) : M response :=
  ret {| body := ErrorPage; status := 404 |}.

Definition view_functions (w : world) (ep : string) : option (request -> M response) :=
  if String.eqb ep "home" then Some home
  else if String.eqb ep "get_captions" then Some (get_captions w)
  else if String.eqb ep "static" then Some send_static_file
  else None.

(** Flask serves HEAD and OPTIONS on every rule that allows GET. *)
Definition allows (r : rule) (m : http_method) : bool :=
  existsb (http_method_eqb m) (rule_methods r)
  || (existsb (http_method_eqb GET) (rule_methods r)
      && (http_method_eqb m HEAD || http_method_eqb m OPTIONS)).

(** Where Flask's routing sends a request: to the view function of a
    rule, to its own answer to OPTIONS, or to an error page.  The redirect
    that Werkzeug answers to a path with repeated slashes is not modelled:
    such a path counts as unknown. *)
Inductive routing : Type :=
| Matched (r : rule)
| AutomaticOptions
| MethodNotAllowed
| NotFound.

Definition match_request (req : request) : routing :=
  match filter (fun r => rule_matches r (path req)) url_map with
  | [] => NotFound
  | candidates =>
      match find (fun r => allows r (method req)) candidates with
      | Some r =>
          if http_method_eqb (method req) OPTIONS then AutomaticOptions
          else Matched r
      | None => MethodNotAllowed
      end
  end.

(** [dispatch_request]: the view function of the matched rule runs; the
    other outcomes of routing are answered by Flask. *)
Definition dispatch_request (w : world) (req : request) : M response :=
  match match_request req with
  | NotFound => ret {| body := ErrorPage; status := 404 |}
  | MethodNotAllowed => ret {| body := ErrorPage; status := 405 |}
  | AutomaticOptions => ret {| body := Empty; status := 200 |}
  | Matched r =>
      match view_functions w (endpoint r) with
      | Some view => (emit (EvView (endpoint r)) ;; view req)%handler
      | None => ret {| body := ErrorPage; status := 500 |}
      end
  end.

(** [full_dispatch_request]: the [before_request] function first; the
    route is dispatched only when it returned [None]. *)
Definition full_dispatch_request (w : world) (req : request) : M response :=
  (rv <- enforce_api_key req ;;
   match rv with
   | Some r => ret r
   | None => dispatch_request w req
   end)%handler.

(** What goes on the wire: the answer to a HEAD request keeps its status
    and loses its body. *)
Definition sent (req : request) (r : response) : response :=
  if http_method_eqb (method req) HEAD
  then {| body := Empty; status := status r |}
  else r.

(** One request served: the response sent, the globals left behind and the
    events of the run.  An exception that leaves a view becomes Flask's
    500 page. *)
Definition serve (w : world) (g : globals) (req : request)
  : response * globals * list event :=
  match full_dispatch_request w req g with
  | (Ok r, g', t) => (sent req r, g', t)
  | (Raise _, g', t) =>
      (sent req {| body := ErrorPage; status := 500 |}, g', t)
  end.

(** A sequence of requests served one after the other by one process. *)
Fixpoint serve_all (w : world) (g : globals) (reqs : list request)
  : list response * globals :=
  match reqs with
  | [] => ([], g)
  | req :: rest =>
      match serve w g req with
      | (r, g', _) =>
          match serve_all w g' rest with
          | (rs, g'') => (r :: rs, g'')
          end
      end
  end.

(** ** The builtin [float] on ASCII text

    A model of [float(s)] for the examples below: surrounding white space,
    an optional sign, then [inf], [infinity], [nan] in any case or a decimal
    number with optional fraction and exponent, digits grouped by single
    underscores; the value is rounded to the nearest binary64 number, ties
    to even.  The theorems do not depend on it: they hold for every
    [float_of_str] of the [world]. *)
Module PyFloat.

Definition is_space (c : ascii) : bool :=
  let n := nat_of_ascii c in
  ((9 <=? n)%nat && (n <=? 13)%nat) || ((28 <=? n)%nat && (n <=? 32)%nat).

Definition digit (c : ascii) : option Z :=
  let n := nat_of_ascii c in
  if (48 <=? n)%nat && (n <=? 57)%nat then Some (Z.of_nat n - 48) else None.

Fixpoint lstrip (l : list ascii) : list ascii :=
  match l with
  | c :: l' => if is_space c then lstrip l' else l
  | [] => []
  end.

Definition strip (l : list ascii) : list ascii :=
  rev (lstrip (rev (lstrip l))).

Definition next_is_digit (l : list ascii) : bool :=
  match l with
  | c :: _ => match digit c with Some _ => true | None => false end
  | [] => false
  end.

(** The longest prefix [digit (["_"] digit)*]: its digits and the rest. *)
Fixpoint scan (prev_digit : bool) (l : list ascii) : list Z * list ascii :=
  match l with
  | [] => ([], [])
  | c :: l' =>
      match digit c with
      | Some d => let (ds, r) := scan true l' in (d :: ds, r)
      | None =>
          if prev_digit && Ascii.eqb c "_" && next_is_digit l'
          then scan false l'
          else ([], l)
      end
  end.

Definition number_of (ds : list Z) : Z :=
  fold_left (fun acc d => 10 * acc + d) ds 0.

Definition take_sign (l : list ascii) : bool * list ascii :=
  match l with
  | c :: l' =>
      if Ascii.eqb c "-" then (true, l')
      else if Ascii.eqb c "+" then (false, l')
      else (false, l)
  | [] => (false, [])
  end.

(** [m * 10 ^ e10], negated when [neg], rounded to binary64. *)
Definition of_decimal (neg : bool) (m e10 : Z) : spec_float :=
  match m with
  | Zpos p =>
      if 0 <=? e10
      then binary_round 53 1024 neg (Z.to_pos (m * 10 ^ e10)) 0
      else
        let k := - e10 in
        let n := Z.max 1100 (60 + 4 * k) in
        let q := (m * 2 ^ n) / 10 ^ k in
        let sticky := if (m * 2 ^ n) mod 10 ^ k =? 0 then 0 else 1 in
        binary_round 53 1024 neg (Z.to_pos (2 * q + sticky)) (- (n + 1))
  | _ => S754_zero neg
  end.

(** The exponent part: absent, or [e] with a signed digit part. *)
Definition exponent (l : list ascii) : option (Z * list ascii) :=
  match l with
  | c :: l' =>
      if Ascii.eqb c "e" || Ascii.eqb c "E" then
        let (neg, l1) := take_sign l' in
        match scan false l1 with
        | ([], _) => None
        | (ds, r) => Some (if neg then - number_of ds else number_of ds, r)
        end
      else Some (0, l)
  | [] => Some (0, [])
  end.

Definition decimal (neg : bool) (l : list ascii) : option spec_float :=
  let (ip, r1) := scan false l in
  let (fp, r2) :=
    match r1 with
    | c :: r => if Ascii.eqb c "." then scan false r else ([], r1)
    | [] => ([], [])
    end in
  match ip ++ fp with
  | [] => None
  | ds =>
      match exponent r2 with
      | Some (e, []) =>
          Some (of_decimal neg (number_of ds) (e - Z.of_nat (List.length fp)))
      | _ => None
      end
  end.

Definition parse (s : string) : option spec_float :=
  let (neg, l) := take_sign (strip (list_ascii_of_string s)) in
  let word := PyStr.lower (string_of_list_ascii l) in
  if String.eqb word "inf" || String.eqb word "infinity" then Some (S754_infinity neg)
  else if String.eqb word "nan" then Some S754_nan
  else decimal neg l.

(** The message quotes the text as [repr] does for printable text
    without quotes or backslashes. *)
Definition float (s : string) : result spec_float :=
  match parse s with
  | Some f => Ok f
  | None =>
      Raise (mk_exn ValueError
               ("could not convert string to float: " ++ Py.quoted s))
  end.

End PyFloat.

(** ** A sample video, its caption document and its world *)

Module Sample.

Definition en_url : string := "https://www.youtube.com/api/timedtext?v=abc&lang=en".
Definition fr_url : string := "https://www.youtube.com/api/timedtext?v=abc&lang=fr".

Definition track (code name url : string) : pyval :=
  PDict [("baseUrl", PStr url);
         ("name", PDict [("simpleText", PStr name)]);
         ("languageCode", PStr code)].

Definition thumb (url : string) (size : Z) : pyval :=
  PDict [("url", PStr url); ("width", PInt size); ("height", PInt size)].

Definition video_details : pyval :=
  PDict [("videoId", PStr "abc");
         ("title", PStr "A talk");
         ("thumbnail",
          PDict [("thumbnails", PList [thumb "https://i.ytimg.com/small.jpg" 120;
                                       thumb "https://i.ytimg.com/large.jpg" 640])]);
         ("author", PStr "A channel")].

Definition with_tracks (tracks : pyval) : pyval :=
  PDict [("videoDetails", video_details);
         ("captions",
          PDict [("playerCaptionsTracklistRenderer",
                  PDict [("captionTracks", tracks)])])].

Definition player_data : pyval :=
  with_tracks (PList [track "en" "English" en_url; track "fr" "French" fr_url]).

(** A track whose name is given as [runs], not as [simpleText]. *)
Definition runs_track : pyval :=
  PDict [("baseUrl", PStr en_url);
         ("name", PDict [("runs", PList [PDict [("text", PStr "English")]])]);
         ("languageCode", PStr "en")].

Definition meta : metadata :=
  {| video_title := PStr "A talk";
     thumbnail := PStr "https://i.ytimg.com/large.jpg";
     channel_name := PStr "A channel";
     channel_logo := PStr "No Channel Logo Available" |}.

Definition xml_text : string :=
  "<transcript><text start='0.5' dur='1.5'>Hello</text><text start='2'>it&amp;#39;s</text><text dur='3'/><note>n</note></transcript>".

Definition xml_root : element :=
  Element "transcript" [] None
    [Element "text" [("start", "0.5"); ("dur", "1.5")] (Some "Hello") [];
     Element "text" [("start", "2")] (Some "it&#39;s") [];
     Element "text" [("dur", "3")] None [];
     Element "note" [] (Some "n") []].

(** A document whose [start] is not a number. *)
Definition bad_xml_text : string :=
  "<transcript><text start='soon'>Hello</text></transcript>".

Definition bad_xml_root : element :=
  Element "transcript" [] None
    [Element "text" [("start", "soon")] (Some "Hello") []].

Definition records : list caption :=
  [ {| start := S754_finite false 4503599627370496 (-53);
       duration := S754_finite false 6755399441055744 (-52);
       caption_text := "Hello" |};
    {| start := S754_finite false 4503599627370496 (-51);
       duration := float_zero;
       caption_text := "it&#39;s" |};
    {| start := float_zero;
       duration := S754_finite false 6755399441055744 (-51);
       caption_text := "" |} ].

(** The parser on the documents above; any other text is taken to be
    ill-formed. *)
Definition fromstring (s : string) : result element :=
  if String.eqb s xml_text then Ok xml_root
  else if String.eqb s bad_xml_text then Ok bad_xml_root
  else Raise (mk_exn (LibraryError "ParseError") "syntax error: line 1, column 0").

Definition connection_error : exn :=
  mk_exn (LibraryError "ConnectionError") "Connection aborted.".

(** A world in which the player answers [pd] for every video and the
    download of a URL is given by [download]. *)
Definition world_of (pd : pyval) (download : pyval -> result string) : world :=
  {| InnerTube := fun _ => Ok {| player := fun _ => Ok pd |};
     requests_get := download;
     ET_fromstring := fromstring;
     float_of_str := PyFloat.float |}.

Definition download (url : pyval) : result string :=
  if Py.eq_str url en_url then Ok xml_text
  else if Py.eq_str url fr_url then Ok bad_xml_text
  else Raise connection_error.

Definition w : world := world_of player_data download.

(** The same video when the caption server cannot be reached. *)
Definition w_offline : world := world_of player_data (fun _ => Raise connection_error).

(** The same video with its one track named by [runs]. *)
Definition w_runs : world := world_of (with_tracks (PList [runs_track])) download.

(** The world [w] written another way: every call is answered alike. *)
Definition w_again : world :=
  {| InnerTube := fun _ =>
       Ok {| player := fun video_id =>
               if String.eqb video_id "abc" then Ok player_data
               else Ok (with_tracks (PList [track "en" "English" en_url;
                                            track "fr" "French" fr_url])) |};
     requests_get := fun url => download url;
     ET_fromstring := fromstring;
     float_of_str := fun s => PyFloat.float s |}.

(** A track without [languageCode], and thumbnails whose last entry has
    no [url]. *)
Definition w_no_code : world :=
  world_of (with_tracks (PList [PDict [("baseUrl", PStr en_url)]])) download.

Definition no_url_data : pyval :=
  PDict [("videoDetails",
          PDict [("thumbnail",
                  PDict [("thumbnails", PList [PDict [("width", PInt 120)]])])])].

Definition g : globals := {| API_KEY := Some "secret" |}.
Definition g_unset : globals := {| API_KEY := None |}.

Definition captions_request (hs args : list (string * string)) : request :=
  {| method := GET; path := "/captions"; headers := hs; args := args |}.

Definition key : list (string * string) := [("X-Api-Key", "secret")].

End Sample.

(** ** Vocabulary of the statements *)

(** The [try] block has got as far as the video fields and the value under
    [captionTracks]. *)
Definition got_metadata (w : world) (video_id : string)
    (meta : metadata) (captions : pyval) : Prop :=
  exists c player_data,
    InnerTube w "WEB" = Ok c /\
    player c video_id = Ok player_data /\
    extract_metadata player_data = Ok (meta, captions).

(** ... and as far as the track of the selected language. *)
Definition got_track (w : world) (video_id language : string)
    (meta : metadata) (selected_caption : pyval) : Prop :=
  exists captions,
    got_metadata w video_id meta captions /\
    Py.truthy captions = true /\
    find_caption captions language = Ok selected_caption /\
    Py.truthy selected_caption = true.

(** ... and as far as the parsed caption records. *)
Definition got_records (w : world) (video_id language : string)
    (meta : metadata) (parsed_captions : list caption) : Prop :=
  exists selected_caption url raw_captions root,
    got_track w video_id language meta selected_caption /\
    Py.getitem selected_caption "baseUrl" = Ok url /\
    requests_get w url = Ok raw_captions /\
    ET_fromstring w raw_captions = Ok root /\
    parse_captions w root = Ok parsed_captions.

(** A step of the [try] block raises [e], the steps before it having
    returned. *)
Inductive step_raises (w : world) (video_id : string)
    (selected_language : option string) (e : exn) : Prop :=
| raises_client :
    InnerTube w "WEB" = Raise e ->
    step_raises w video_id selected_language e
| raises_player c :
    InnerTube w "WEB" = Ok c ->
    player c video_id = Raise e ->
    step_raises w video_id selected_language e
| raises_metadata c player_data :
    InnerTube w "WEB" = Ok c ->
    player c video_id = Ok player_data ->
    extract_metadata player_data = Raise e ->
    step_raises w video_id selected_language e
| raises_languages meta captions :
    got_metadata w video_id meta captions ->
    Py.truthy captions = true ->
    opt_truthy selected_language = false ->
    available_languages captions = Raise e ->
    step_raises w video_id selected_language e
| raises_lookup meta captions :
    got_metadata w video_id meta captions ->
    Py.truthy captions = true ->
    opt_truthy selected_language = true ->
    find_caption captions (opt_text selected_language) = Raise e ->
    step_raises w video_id selected_language e
| raises_url meta selected_caption :
    opt_truthy selected_language = true ->
    got_track w video_id (opt_text selected_language) meta selected_caption ->
    Py.getitem selected_caption "baseUrl" = Raise e ->
    step_raises w video_id selected_language e
| raises_download meta selected_caption url :
    opt_truthy selected_language = true ->
    got_track w video_id (opt_text selected_language) meta selected_caption ->
    Py.getitem selected_caption "baseUrl" = Ok url ->
    requests_get w url = Raise e ->
    step_raises w video_id selected_language e
| raises_xml meta selected_caption url raw_captions :
    opt_truthy selected_language = true ->
    got_track w video_id (opt_text selected_language) meta selected_caption ->
    Py.getitem selected_caption "baseUrl" = Ok url ->
    requests_get w url = Ok raw_captions ->
    ET_fromstring w raw_captions = Raise e ->
    step_raises w video_id selected_language e
| raises_records meta selected_caption url raw_captions root :
    opt_truthy selected_language = true ->
    got_track w video_id (opt_text selected_language) meta selected_caption ->
    Py.getitem selected_caption "baseUrl" = Ok url ->
    requests_get w url = Ok raw_captions ->
    ET_fromstring w raw_captions = Ok root ->
    parse_captions w root = Raise e ->
    step_raises w video_id selected_language e.

(** A caption track and its entry in [available_languages]. *)
Definition language_entry_of (caption entry : pyval) : Prop :=
  exists code name simple,
    Py.getitem caption "languageCode" = Ok code /\
    Py.getitem caption "name" = Ok name /\
    Py.getitem name "simpleText" = Ok simple /\
    entry = PDict [("languageCode", code); ("name", simple)].

(** The builtin [float] accepts the [start] and [dur] attributes that the
    element has. *)
Definition numeric_attrs (w : world) (e : element) : Prop :=
  forall name s,
    name = "start"%string \/ name = "dur"%string ->
    Py.assoc name (attrib e) = Some s ->
    exists f, float_of_str w s = Ok f.

(** An element and the record made of it. *)
Definition record_of (w : world) (e : element) (r : caption) : Prop :=
  match Py.assoc "start" (attrib e) with
  | Some s => float_of_str w s = Ok (start r)
  | None => start r = float_zero
  end /\
  match Py.assoc "dur" (attrib e) with
  | Some s => float_of_str w s = Ok (duration r)
  | None => duration r = float_zero
  end /\
  caption_text r = match text e with Some s => s | None => ""%string end.

(** No text holds [&] or a line break, and none is empty. *)
Definition plain_text (s : string) : Prop :=
  PyStr.nonempty s = true /\
  PyStr.mem_char "&" s = false /\
  PyStr.mem_char "010" s = false.

(** *** The shape of a player response *)

Definition child (v : pyval) (k : string) : option pyval :=
  match v with
  | PDict d => Py.assoc k d
  | _ => None
  end.

(** The object under [k], or the empty dict the code passes to [get]. *)
Definition sub (v : pyval) (k : string) : pyval :=
  match child v k with
  | Some x => x
  | None => PDict []
  end.

Definition pick (o : option pyval) (dflt : pyval) : pyval :=
  match o with
  | Some x => x
  | None => dflt
  end.

Definition is_dict (v : pyval) : bool :=
  match v with
  | PDict _ => true
  | _ => false
  end.

(** The [url] of the last entry of a thumbnail list, when the list is
    non-empty and that entry is a dict with the key. *)
Definition last_entry_url (v : pyval) : option pyval :=
  match v with
  | PList l =>
      match rev l with
      | PDict d :: _ => Py.assoc "url" d
      | _ => None
      end
  | _ => None
  end.

(** A value under [thumbnails] the code can use: absent, false, or a list
    whose last entry has a [url]. *)
Definition thumbnails_ok (o : option pyval) : bool :=
  match o with
  | None => true
  | Some v =>
      negb (Py.truthy v)
      || match last_entry_url v with Some _ => true | None => false end
  end.

Definition thumbnail_of (o : option pyval) (dflt : string) : pyval :=
  match o with
  | None => PStr dflt
  | Some v =>
      if Py.truthy v then pick (last_entry_url v) (PStr dflt) else PStr dflt
  end.

Definition channel_renderer (video_details : pyval) : pyval :=
  sub (sub (sub video_details "channelThumbnailSupportedRenderers")
         "channelThumbnailWithLinkRenderer") "thumbnail".

(** Every object the code calls [get] on is a dict, and the thumbnail
    lists are usable; any key may be missing. *)
Definition well_shaped (player_data : pyval) : bool :=
  let vd := sub player_data "videoDetails" in
  is_dict player_data
  && is_dict vd
  && is_dict (sub vd "thumbnail")
  && thumbnails_ok (child (sub vd "thumbnail") "thumbnails")
  && is_dict (sub vd "channelThumbnailSupportedRenderers")
  && is_dict (sub (sub vd "channelThumbnailSupportedRenderers")
                "channelThumbnailWithLinkRenderer")
  && is_dict (channel_renderer vd)
  && thumbnails_ok (child (channel_renderer vd) "thumbnails")
  && is_dict (sub player_data "captions")
  && is_dict (sub (sub player_data "captions") "playerCaptionsTracklistRenderer").

(** What extraction returns on a well-shaped response. *)
Definition expected_metadata (player_data : pyval) : metadata * pyval :=
  let vd := sub player_data "videoDetails" in
  ({| video_title := pick (child vd "title") (PStr "Unknown Title");
      thumbnail := thumbnail_of (child (sub vd "thumbnail") "thumbnails")
                     "No Thumbnail Available";
      channel_name := pick (child vd "author") (PStr "Unknown Channel");
      channel_logo := thumbnail_of (child (channel_renderer vd) "thumbnails")
                        "No Channel Logo Available" |},
   pick (child (sub (sub player_data "captions") "playerCaptionsTracklistRenderer")
           "captionTracks")
     (PList [])).

(** Two worlds that answer every call alike. *)
Definition same_client (r1 r2 : result client) : Prop :=
  match r1, r2 with
  | Ok c1, Ok c2 => forall video_id, player c1 video_id = player c2 video_id
  | Raise e1, Raise e2 => e1 = e2
  | _, _ => False
  end.

Record same_answers (w1 w2 : world) : Prop := {
  same_InnerTube : forall name, same_client (InnerTube w1 name) (InnerTube w2 name);
  same_requests_get : forall url, requests_get w1 url = requests_get w2 url;
  same_fromstring : forall s, ET_fromstring w1 s = ET_fromstring w2 s;
  same_float : forall s, float_of_str w1 s = float_of_str w2 s
}.

(** A computation that leaves the globals as it found them. *)
Definition keeps_globals {A} (m : M A) : Prop :=
  forall g, snd (fst (m g)) = g.

(** A computation out of which no exception comes. *)
Definition never_raises {A} (m : M A) : Prop :=
  forall g, exists a g' t, m g = (Ok a, g', t).

(** ** Vocabulary of the further properties *)

(** A track that has a [languageCode], and it is not [language]. *)
Definition other_language (language : string) (caption : pyval) : Prop :=
  exists code,
    Py.getitem caption "languageCode" = Ok code /\
    Py.eq_str code language = false.

(** A track that has [language] as its [languageCode]. *)
Definition of_language (language : string) (caption : pyval) : Prop :=
  exists code,
    Py.getitem caption "languageCode" = Ok code /\
    Py.eq_str code language = true.

(** An answer of [get_captions] as a client sees it: a JSON object that
    has no [error] key with status 200, or a text under [error] with
    status 400, 404 or 500. *)
Definition well_formed_answer (r : response) : Prop :=
  exists d,
    body r = Json (PDict d) /\
    ((status r = 200 /\ Py.assoc "error" d = None) \/
     (In (status r) [400; 404; 500] /\
      exists msg, Py.assoc "error" d = Some (PStr msg))).

(** The calls a run of [get_captions] may make, in order: the client, the
    player, one download; an error is logged once, at the end. *)
Definition call_sequence (video_id : string) (t : list event) : Prop :=
  exists calls log,
    t = calls ++ log /\
    (calls = [] \/
     calls = [EvInnerTube "WEB"] \/
     calls = [EvInnerTube "WEB"; EvPlayer video_id] \/
     exists url, calls = [EvInnerTube "WEB"; EvPlayer video_id; EvRequestsGet url]) /\
    (log = [] \/ exists msg, log = [EvLogError msg]).

(** [old in s] *)
Fixpoint occurs (old s : string) : bool :=
  match s with
  | EmptyString => prefix old s
  | String _ s' => prefix old s || occurs old s'
  end.

(** The values of [timestamps] that ask for timestamps. *)
Definition spells_true (s : string) : Prop :=
  exists a b c d,
    s = String a (String b (String c (String d EmptyString))) /\
    (a = "t" \/ a = "T")%char /\
    (b = "r" \/ b = "R")%char /\
    (c = "u" \/ c = "U")%char /\
    (d = "e" \/ d = "E")%char.

(** A video without captions: the player response has no [captions] key. *)
Definition silent_world : world :=
  Sample.world_of (PDict [("videoDetails", Sample.video_details)]) Sample.download.

(** A response that has caption tracks and no [videoDetails]. *)
Definition bare_tracks : pyval :=
  PDict [("captions",
          PDict [("playerCaptionsTracklistRenderer",
                  PDict [("captionTracks",
                          PList [Sample.track "en" "English" Sample.en_url])])])].

(** * Properties *)

(** ** The handler monad *)

Lemma option_string_eqb_eq (a b : option string) :
  option_string_eqb a b = true <-> a = b.
Proof.
  destruct a as [x|], b as [y|]; simpl; try (split; congruence).
  rewrite String.eqb_eq. split; congruence.
Qed.

Section Globals.

Context {A B : Type}.

Lemma keeps_ret (a : A) : keeps_globals (ret a).
Proof. intro g. reflexivity. Qed.

Lemma keeps_lift (r : result A) : keeps_globals (lift r).
Proof. intro g. reflexivity. Qed.

Lemma keeps_emit (ev : event) : keeps_globals (emit ev).
Proof. intro g. reflexivity. Qed.

Lemma keeps_read : keeps_globals read_globals.
Proof. intro g. reflexivity. Qed.

Lemma keeps_bind (m : M A) (f : A -> M B) :
  keeps_globals m -> (forall a, keeps_globals (f a)) -> keeps_globals (bind m f).
Proof.
  intros Hm Hf g. unfold bind. specialize (Hm g).
  destruct (m g) as [[[a|e] g1] t1]; simpl in Hm; subst g1; [|reflexivity].
  specialize (Hf a g). destruct (f a g) as [[r g2] t2]. exact Hf.
Qed.

Lemma keeps_try (m : M A) (h : exn -> M A) :
  keeps_globals m -> (forall e, keeps_globals (h e)) -> keeps_globals (try_except m h).
Proof.
  intros Hm Hh g. unfold try_except. specialize (Hm g).
  destruct (m g) as [[[a|e] g1] t1]; simpl in Hm; subst g1; [reflexivity|].
  specialize (Hh e g). destruct (h e g) as [[r g2] t2]. exact Hh.
Qed.

Lemma keeps_if (b : bool) (m1 m2 : M A) :
  keeps_globals m1 -> keeps_globals m2 -> keeps_globals (if b then m1 else m2).
Proof. destruct b; auto. Qed.

Lemma never_raises_ret (a : A) : never_raises (ret a).
Proof. intro g. exists a, g, []. reflexivity. Qed.

Lemma never_raises_try (m : M A) (h : exn -> M A) :
  (forall e, never_raises (h e)) -> never_raises (try_except m h).
Proof.
  intros Hh g. unfold try_except.
  destruct (m g) as [[[a|e] g1] t1].
  - exists a, g1, t1. reflexivity.
  - destruct (Hh e g1) as (a & g2 & t2 & E). rewrite E.
    exists a, g2, (t1 ++ t2). reflexivity.
Qed.

End Globals.

Lemma keeps_call {A} (ev : event) (r : result A) : keeps_globals (call ev r).
Proof. intro g. unfold call, bind, emit, lift. reflexivity. Qed.

Create HintDb globals.
#[local] Hint Resolve keeps_ret keeps_lift keeps_emit keeps_read keeps_call
  keeps_bind keeps_try keeps_if : globals.

Lemma keeps_get_captions_try w video_id selected_language timestamps :
  keeps_globals (get_captions_try w video_id selected_language timestamps).
Proof.
  unfold get_captions_try.
  repeat (first [ apply keeps_bind; [ auto with globals | intros ? ]
                | apply keeps_if
                | apply keeps_ret ]).
Qed.

Lemma keeps_get_captions w req : keeps_globals (get_captions w req).
Proof.
  unfold get_captions. apply keeps_if; [apply keeps_ret|].
  apply keeps_try; [apply keeps_get_captions_try|].
  intro e. unfold get_captions_except. auto with globals.
Qed.

Lemma keeps_home req : keeps_globals (home req).
Proof. apply keeps_ret. Qed.

Lemma keeps_enforce_api_key req : keeps_globals (enforce_api_key req).
Proof.
  unfold enforce_api_key, validate_api_key.
  apply keeps_bind; [auto with globals|]. intro valid.
  destruct valid; apply keeps_ret.
Qed.

Lemma view_keeps_globals w ep view req :
  view_functions w ep = Some view -> keeps_globals (view req).
Proof.
  unfold view_functions. intro H.
  destruct (String.eqb ep "home").
  - injection H as <-. apply keeps_home.
  - destruct (String.eqb ep "get_captions").
    + injection H as <-. apply keeps_get_captions.
    + destruct (String.eqb ep "static"); [|discriminate].
      injection H as <-. apply keeps_ret.
Qed.

Lemma keeps_full_dispatch_request w req :
  keeps_globals (full_dispatch_request w req).
Proof.
  unfold full_dispatch_request.
  apply keeps_bind; [apply keeps_enforce_api_key|]. intros [r|]; [apply keeps_ret|].
  unfold dispatch_request.
  destruct (match_request req) as [r| | |]; try apply keeps_ret.
  destruct (view_functions w (endpoint r)) as [view|] eqn:E; [|apply keeps_ret].
  apply keeps_bind; [apply keeps_emit|]. intros _.
  eapply view_keeps_globals; eassumption.
Qed.

Lemma never_raises_get_captions w req : never_raises (get_captions w req).
Proof.
  unfold get_captions.
  destruct (negb (opt_truthy (args_get req "video_id"))); [apply never_raises_ret|].
  apply never_raises_try. intros e g. unfold get_captions_except.
  eexists _, _, _. reflexivity.
Qed.

(** ** The API key gate *)

Lemma validate_api_key_run req g :
  validate_api_key req g =
  (Ok (option_string_eqb (headers_get (headers req) "x-api-key") (API_KEY g)), g, []).
Proof. reflexivity. Qed.

Lemma matched_has_view w req r :
  match_request req = Matched r ->
  exists view, view_functions w (endpoint r) = Some view.
Proof.
  unfold match_request, url_map, registered_routes. cbn [filter].
  repeat match goal with
    | |- context [rule_matches ?x ?p] => destruct (rule_matches x p)
    end;
    cbn [find];
    repeat match goal with
      | |- context [allows ?x ?m] => destruct (allows x m)
      end;
    destruct (http_method_eqb (method req) OPTIONS);
    intro H; inversion H; subst; eexists; reflexivity.
Qed.

Lemma full_dispatch_valid w req g :
  option_string_eqb (headers_get (headers req) "x-api-key") (API_KEY g) = true ->
  full_dispatch_request w req g = dispatch_request w req g.
Proof.
  intro H. unfold full_dispatch_request, enforce_api_key, bind at 1 2.
  rewrite validate_api_key_run, H. simpl.
  destruct (dispatch_request w req g) as [[r g'] t]. reflexivity.
Qed.

Lemma full_dispatch_invalid w req g :
  option_string_eqb (headers_get (headers req) "x-api-key") (API_KEY g) = false ->
  full_dispatch_request w req g = (Ok unauthorized, g, []).
Proof.
  intro H. unfold full_dispatch_request, enforce_api_key, bind at 1 2.
  rewrite validate_api_key_run, H. reflexivity.
Qed.

(** The claim of C1 at a HEAD request with a wrong key: the status is 403
    and no body is sent. *)
Lemma head_request_gets_no_body :
  serve Sample.w Sample.g
    {| method := HEAD; path := "/captions";
       headers := [("x-api-key", "guess")]; args := [("video_id", "abc")] |}
  = ({| body := Empty; status := 403 |}, Sample.g, []).
Proof. reflexivity. Qed.

(** C1, amended.  Whatever the request, when its [x-api-key] header differs
    from the global [API_KEY], [enforce_api_key] ends it with status 403 and
    the JSON body [{'error': 'Unauthorized access. Invalid API key.'}], and
    nothing else happens: no view function is entered, no call leaves the
    process.  That response is what is sent, but for a HEAD request, which
    gets the status without the body.  When the header equals [API_KEY] and
    routing sends the request to a rule, the run is that of the rule's view
    function: [home] for a GET of [/], [get_captions] for a GET of
    [/captions]. *)
Theorem api_key_gate (w : world) (g : globals) (req : request) :
  (headers_get (headers req) "x-api-key" <> API_KEY g ->
   full_dispatch_request w req g =
     (Ok {| body := Json (PDict [("error",
                                  PStr "Unauthorized access. Invalid API key.")]);
            status := 403 |}, g, []) /\
   (method req <> HEAD ->
    serve w g req =
      ({| body := Json (PDict [("error",
                                PStr "Unauthorized access. Invalid API key.")]);
          status := 403 |}, g, [])) /\
   (method req = HEAD ->
    serve w g req = ({| body := Empty; status := 403 |}, g, []))) /\
  (headers_get (headers req) "x-api-key" = API_KEY g ->
   (forall r, match_request req = Matched r ->
    exists view,
      view_functions w (endpoint r) = Some view /\
      full_dispatch_request w req g =
        (emit (EvView (endpoint r)) ;; view req)%handler g) /\
   (method req = GET -> path req = "/"%string ->
    full_dispatch_request w req g =
      (emit (EvView "home") ;; home req)%handler g) /\
   (method req = GET -> path req = "/captions"%string ->
    full_dispatch_request w req g =
      (emit (EvView "get_captions") ;; get_captions w req)%handler g)).
Proof.
  split.
  - intro Hne.
    assert (E : option_string_eqb (headers_get (headers req) "x-api-key")
                  (API_KEY g) = false).
    { destruct (option_string_eqb _ _) eqn:E; [|reflexivity].
      apply option_string_eqb_eq in E. contradiction. }
    split; [apply (full_dispatch_invalid w req g E)|].
    unfold serve, sent. rewrite (full_dispatch_invalid w req g E).
    split.
    + intro Hm. destruct (method req); try reflexivity. contradiction.
    + intros ->. reflexivity.
  - intro Heq.
    assert (E : option_string_eqb (headers_get (headers req) "x-api-key")
                  (API_KEY g) = true)
      by (apply option_string_eqb_eq; exact Heq).
    rewrite (full_dispatch_valid w req g E).
    split; [|split].
    + intros r Hr. destruct (matched_has_view w req r Hr) as [view Hv].
      exists view. split; [exact Hv|].
      unfold dispatch_request. rewrite Hr, Hv. reflexivity.
    + intros Hm Hp. unfold dispatch_request, match_request.
      rewrite Hp, Hm. reflexivity.
    + intros Hm Hp. unfold dispatch_request, match_request.
      rewrite Hp, Hm. reflexivity.
Qed.

Lemma api_key_gate_witness :
  serve Sample.w Sample.g
    (Sample.captions_request [("x-api-key", "guess")] [("video_id", "abc")])
  = ({| body := Json (PDict [("error",
                              PStr "Unauthorized access. Invalid API key.")]);
        status := 403 |}, Sample.g, []) /\
  full_dispatch_request Sample.w
    (Sample.captions_request Sample.key [("video_id", "abc")]) Sample.g
  = (emit (EvView "get_captions") ;;
     get_captions Sample.w
       (Sample.captions_request Sample.key [("video_id", "abc")]))%handler
      Sample.g.
Proof.
  split.
  - apply (proj1 (api_key_gate Sample.w Sample.g
                    (Sample.captions_request [("x-api-key", "guess")]
                       [("video_id", "abc")]))).
    + simpl. discriminate.
    + discriminate.
  - apply (proj2 (api_key_gate Sample.w Sample.g
                    (Sample.captions_request Sample.key [("video_id", "abc")]))
             eq_refl); reflexivity.
Defined.

(** C2.  With [API_KEY] unset and no [x-api-key] header in the request,
    [validate_api_key] returns [True]: the request goes on to routing as if
    there were no gate, and a GET of [/captions] runs [get_captions]. *)
Theorem unset_key_opens_all (w : world) (g : globals) (req : request) :
  API_KEY g = None ->
  headers_get (headers req) "x-api-key" = None ->
  validate_api_key req g = (Ok true, g, []) /\
  full_dispatch_request w req g = dispatch_request w req g /\
  (path req = "/captions" -> method req = GET ->
   full_dispatch_request w req g =
     (emit (EvView "get_captions") ;; get_captions w req)%handler g).
Proof.
  intros Hkey Hhdr.
  assert (E : option_string_eqb (headers_get (headers req) "x-api-key") (API_KEY g) = true)
    by (rewrite Hkey, Hhdr; reflexivity).
  split; [rewrite validate_api_key_run, E; reflexivity|].
  split; [apply full_dispatch_valid, E|].
  intros Hp Hm. rewrite full_dispatch_valid by exact E.
  unfold dispatch_request, match_request. rewrite Hp, Hm. reflexivity.
Qed.

Lemma unset_key_opens_all_witness :
  validate_api_key (Sample.captions_request [] [("video_id", "abc")]) Sample.g_unset
  = (Ok true, Sample.g_unset, []) /\
  full_dispatch_request Sample.w (Sample.captions_request [] [("video_id", "abc")])
    Sample.g_unset
  = (emit (EvView "get_captions") ;;
     get_captions Sample.w (Sample.captions_request [] [("video_id", "abc")]))%handler
      Sample.g_unset.
Proof.
  destruct (unset_key_opens_all Sample.w Sample.g_unset
              (Sample.captions_request [] [("video_id", "abc")])
              eq_refl eq_refl) as (Hv & _ & Hc).
  split; [exact Hv|]. apply Hc; reflexivity.
Defined.

(** ** Routes *)

(** The claim of C9 read on the registrations of the file and on the URL
    map of the application: neither holds one rule only. *)
Lemma more_than_one_route :
  ~ (exists r, registered_routes = [r]) /\ ~ (exists r, url_map = [r]).
Proof. split; intros [r H]; discriminate H. Qed.

(** C9, amended.  The file registers two routes, each with its own view
    function: [/] (GET) with [home] and [/captions] (GET) with
    [get_captions].  The URL map of the application holds these two rules
    beside the static rule that [Flask(__name__)] adds.  A GET of [/] is
    routed to the first and a GET of [/captions] to the second, and the two
    view functions are not the same: on a request without parameters they
    answer differently. *)
Theorem two_routes :
  map (fun r => (rule_path r, rule_methods r, endpoint r)) registered_routes
    = [("/", [GET], "home"); ("/captions", [GET], "get_captions")] /\
  map (fun r => (rule_path r, rule_methods r, endpoint r)) url_map
    = [("/static/<path:filename>", [GET], "static");
       ("/", [GET], "home"); ("/captions", [GET], "get_captions")] /\
  (forall w, view_functions w "home" = Some home /\
             view_functions w "get_captions" = Some (get_captions w)) /\
  (forall hs a,
     match_request {| method := GET; path := "/"; headers := hs; args := a |}
     = Matched {| rule_path := "/"; rule_methods := [GET]; endpoint := "home" |}) /\
  (forall hs a,
     match_request {| method := GET; path := "/captions"; headers := hs; args := a |}
     = Matched {| rule_path := "/captions"; rule_methods := [GET];
                  endpoint := "get_captions" |}) /\
  (forall w g m p hs,
     home {| method := m; path := p; headers := hs; args := [] |} g
     <> get_captions w {| method := m; path := p; headers := hs; args := [] |} g).
Proof.
  split; [reflexivity|]. split; [reflexivity|].
  split; [intro w; split; reflexivity|].
  split; [intros hs a; reflexivity|].
  split; [intros hs a; reflexivity|].
  intros w g m p hs H. discriminate H.
Qed.

(** ** No state between requests *)

Lemma map_result_ext {A B} (f f' : A -> result B) (l : list A) :
  (forall x, f x = f' x) -> map_result f l = map_result f' l.
Proof.
  intro H. induction l as [|x l IH]; simpl; [reflexivity|].
  rewrite H, IH. reflexivity.
Qed.

Lemma parse_captions_ext w1 w2 root :
  (forall s, float_of_str w1 s = float_of_str w2 s) ->
  parse_captions w1 root = parse_captions w2 root.
Proof.
  intro H. unfold parse_captions. apply map_result_ext. intro e.
  unfold parse_text, float_attr.
  destruct (Py.assoc "start" (attrib e)), (Py.assoc "dur" (attrib e));
    rewrite ?H; reflexivity.
Qed.

Lemma bind_ext {A B} (m : M A) (f1 f2 : A -> M B) g :
  (forall a g', f1 a g' = f2 a g') -> bind m f1 g = bind m f2 g.
Proof.
  intro H. unfold bind. destruct (m g) as [[[a|e] g1] t1]; [|reflexivity].
  rewrite H. reflexivity.
Qed.

Lemma bind_call_ok {A B} ev (a : A) (f : A -> M B) g :
  bind (call ev (Ok a)) f g =
  match f a g with (r, g2, t2) => (r, g2, ev :: t2) end.
Proof. unfold call, bind, emit, lift. destruct (f a g) as [[r g2] t2]. reflexivity. Qed.

Lemma bind_call_raise {A B} ev e (f : A -> M B) g :
  bind (call ev (Raise e)) f g = (Raise e, g, [ev]).
Proof. reflexivity. Qed.

Lemma bind_lift_ok {A B} (a : A) (f : A -> M B) g :
  bind (lift (Ok a)) f g = f a g.
Proof. unfold bind, lift. destruct (f a g) as [[r g2] t2]. reflexivity. Qed.

Lemma bind_lift_raise {A B} e (f : A -> M B) g :
  bind (lift (Raise e)) f g = (Raise e, g, []).
Proof. reflexivity. Qed.

Lemma get_captions_try_ext w1 w2 video_id selected_language timestamps g :
  same_answers w1 w2 ->
  get_captions_try w1 video_id selected_language timestamps g
  = get_captions_try w2 video_id selected_language timestamps g.
Proof.
  intros [Hc Hg Hx Hf]. unfold get_captions_try.
  specialize (Hc "WEB").
  destruct (InnerTube w1 "WEB") as [c1|e1], (InnerTube w2 "WEB") as [c2|e2];
    simpl in Hc; try contradiction; [|subst e2; reflexivity].
  rewrite !bind_call_ok, Hc.
  match goal with
  | |- match ?x with _ => _ end = match ?y with _ => _ end =>
      replace x with y; [reflexivity|]
  end.
  repeat first
    [ reflexivity
    | rewrite Hg
    | rewrite Hx
    | rewrite (parse_captions_ext w1 w2) by exact Hf
    | apply bind_ext; intros
    | match goal with
      | |- (if ?b then _ else _) _ = _ => destruct b
      end ].
Qed.

Lemma get_captions_ext w1 w2 req g :
  same_answers w1 w2 -> get_captions w1 req g = get_captions w2 req g.
Proof.
  intro H. unfold get_captions.
  destruct (negb (opt_truthy (args_get req "video_id"))); [reflexivity|].
  unfold try_except. rewrite (get_captions_try_ext w1 w2) by exact H. reflexivity.
Qed.

Lemma serve_ext w1 w2 g req :
  same_answers w1 w2 -> serve w1 g req = serve w2 g req.
Proof.
  intro H. unfold serve.
  replace (full_dispatch_request w1 req g) with (full_dispatch_request w2 req g);
    [reflexivity|].
  unfold full_dispatch_request. apply bind_ext. intros [r|] g'; [reflexivity|].
  unfold dispatch_request.
  destruct (match_request req) as [r| | |]; try reflexivity.
  unfold view_functions.
  destruct (String.eqb (endpoint r) "home"); [reflexivity|].
  destruct (String.eqb (endpoint r) "get_captions"); [|reflexivity].
  apply bind_ext. intros _ g''. symmetry. apply get_captions_ext, H.
Qed.

Lemma serve_keeps_globals w g req : snd (fst (serve w g req)) = g.
Proof.
  unfold serve. pose proof (keeps_full_dispatch_request w req g) as H.
  destruct (full_dispatch_request w req g) as [[[r|e] g'] t]; exact H.
Qed.

Lemma serve_all_independent w g reqs :
  serve_all w g reqs = (map (fun req => fst (fst (serve w g req))) reqs, g).
Proof.
  induction reqs as [|req rest IH]; simpl; [reflexivity|].
  pose proof (serve_keeps_globals w g req) as H.
  destruct (serve w g req) as [[r g'] t]. simpl in H. subst g'.
  rewrite IH. reflexivity.
Qed.

(** C10.  Serving a request is a function of the request, the globals and
    the answers of the outside world: two worlds that answer alike give
    the same response and the same events.  Serving leaves the globals as
    they were, so in a sequence of requests each response is the one the
    request would get on its own. *)
Theorem stateless_one_shot (w1 w2 : world) (g : globals) (req : request)
    (reqs : list request) :
  same_answers w1 w2 ->
  serve w1 g req = serve w2 g req /\
  snd (fst (serve w1 g req)) = g /\
  serve_all w1 g reqs = (map (fun r => fst (fst (serve w1 g r))) reqs, g).
Proof.
  intro H. split; [apply serve_ext, H|].
  split; [apply serve_keeps_globals|apply serve_all_independent].
Qed.

(** ** Exceptions inside [get_captions] *)

Ltac run :=
  repeat first
    [ rewrite bind_call_ok
    | rewrite bind_lift_ok
    | rewrite bind_call_raise
    | rewrite bind_lift_raise
    | progress cbn [fst snd negb]
    | match goal with
      | H : ?x = _ |- context [?x] => rewrite H
      end ].

Lemma step_raises_try w video_id selected_language timestamps e g :
  step_raises w video_id selected_language e ->
  exists t,
    get_captions_try w video_id selected_language timestamps g = (Raise e, g, t).
Proof.
  intro H. unfold get_captions_try.
  destruct H;
    repeat match goal with
      | H : got_track _ _ _ _ _ |- _ => destruct H as (? & ? & ? & ? & ?)
      | H : got_metadata _ _ _ _ |- _ => destruct H as (? & ? & ? & ? & ?)
      end;
    run; eexists; reflexivity.
Qed.

Lemma get_captions_raise w req g video_id e g' t :
  args_get req "video_id" = Some video_id ->
  video_id <> "" ->
  get_captions_try w video_id (args_get req "language") (timestamps_flag req) g
    = (Raise e, g', t) ->
  get_captions w req g =
    (Ok (jsonify [("error", PStr (exc_str e))] 500), g',
     t ++ [EvLogError ("Error while fetching captions for video_id "
                         ++ video_id ++ ": " ++ exc_str e)]).
Proof.
  intros Hv Hne H. unfold get_captions. rewrite Hv.
  destruct video_id as [|c s]; [contradiction|].
  cbn [opt_truthy PyStr.nonempty negb opt_text].
  unfold try_except. rewrite H. reflexivity.
Qed.

Lemma serve_captions w g req :
  headers_get (headers req) "x-api-key" = API_KEY g ->
  method req = GET ->
  path req = "/captions" ->
  serve w g req =
    match get_captions w req g with
    | (Ok r, g', t) => (r, g', EvView "get_captions" :: t)
    | (Raise _, g', t) =>
        ({| body := ErrorPage; status := 500 |}, g', EvView "get_captions" :: t)
    end.
Proof.
  intros Hk Hm Hp. unfold serve, sent.
  rewrite full_dispatch_valid by (apply option_string_eqb_eq; exact Hk).
  unfold dispatch_request, match_request. rewrite Hp, Hm.
  cbn -[get_captions]. unfold bind, emit.
  destruct (get_captions w req g) as [[[r|e] g'] t]; reflexivity.
Qed.

(** C8.  For a request of [/captions] that passed the key check and has a
    non-empty [video_id]: when a step of the [try] block raises [e] (the
    client constructor, the player call, the field extraction, the language
    list, the track lookup, the [baseUrl] subscript, the download, the XML
    parser or the record conversion), the service answers 500 with the JSON
    body [{'error': str(e)}]; whatever the block raises is answered so, after
    one log line; and no exception leaves [get_captions]. *)
Theorem exceptions_become_500 (w : world) (g : globals) (req : request)
    (video_id : string) :
  headers_get (headers req) "x-api-key" = API_KEY g ->
  method req = GET ->
  path req = "/captions" ->
  args_get req "video_id" = Some video_id ->
  video_id <> "" ->
  (forall e,
     step_raises w video_id (args_get req "language") e ->
     exists t,
       serve w g req = (jsonify [("error", PStr (exc_str e))] 500, g, t)) /\
  (forall e g' t,
     get_captions_try w video_id (args_get req "language") (timestamps_flag req) g
       = (Raise e, g', t) ->
     get_captions w req g =
       (Ok (jsonify [("error", PStr (exc_str e))] 500), g',
        t ++ [EvLogError ("Error while fetching captions for video_id "
                            ++ video_id ++ ": " ++ exc_str e)])) /\
  never_raises (get_captions w req).
Proof.
  intros Hk Hm Hp Hv Hne. split; [|split].
  - intros e He.
    destruct (step_raises_try w video_id (args_get req "language")
                (timestamps_flag req) e g He) as [t Ht].
    rewrite (serve_captions w g req Hk Hm Hp).
    rewrite (get_captions_raise w req g video_id e g t Hv Hne Ht).
    eexists. reflexivity.
  - intros e g' t. apply get_captions_raise; assumption.
  - apply never_raises_get_captions.
Qed.

(** ** Field extraction *)

Lemma get_dict v k dflt :
  is_dict v = true -> Py.get v k dflt = Ok (pick (child v k) dflt).
Proof. destruct v; try discriminate. reflexivity. Qed.

Lemma get_not_dict v k dflt :
  is_dict v = false -> exists e, Py.get v k dflt = Raise e.
Proof. destruct v; try discriminate; intros _; eexists; reflexivity. Qed.

Lemma last_url_ok o dflt :
  thumbnails_ok o = true ->
  last_url (pick o (PList [])) dflt = Ok (thumbnail_of o dflt).
Proof.
  destruct o as [v|]; [|reflexivity].
  unfold thumbnails_ok, last_url, thumbnail_of, pick.
  destruct (Py.truthy v) eqn:T; [|reflexivity].
  cbn [negb orb]. unfold last_entry_url, Py.getitem_last.
  destruct v; try discriminate.
  destruct (rev l) as [|x l']; [discriminate|].
  destruct x; try discriminate.
  cbn [rbind Py.getitem]. destruct (Py.assoc "url" d); [reflexivity|discriminate].
Qed.

Lemma last_url_not_ok o dflt :
  thumbnails_ok o = false ->
  exists e, last_url (pick o (PList [])) dflt = Raise e.
Proof.
  destruct o as [v|]; [|discriminate].
  unfold thumbnails_ok, last_url, pick.
  destruct (Py.truthy v) eqn:T; [|discriminate].
  cbn [negb orb]. unfold last_entry_url, Py.getitem_last.
  destruct v; try discriminate; try (intros _; eexists; reflexivity).
  - destruct s as [|c s]; [discriminate|]. intros _.
    destruct (Py.last_char (String c s)); eexists; reflexivity.
  - destruct (rev l) as [|x l']; [intros _; eexists; reflexivity|].
    cbn [rbind]. destruct x; try (intros _; eexists; reflexivity).
    cbn [Py.getitem]. destruct (Py.assoc "url" d); [discriminate|].
    intros _. eexists. reflexivity.
Qed.

Lemma sub_pick v k : sub v k = pick (child v k) (PDict []).
Proof. reflexivity. Qed.

Lemma extract_metadata_well_shaped player_data :
  well_shaped player_data = true ->
  extract_metadata player_data = Ok (expected_metadata player_data).
Proof.
  unfold well_shaped. cbv zeta. rewrite !andb_true_iff.
  intros (((((((((D0 & D1) & D2) & T1) & D3) & D4) & D5) & T2) & D6) & D7).
  unfold extract_metadata, expected_metadata, channel_renderer in *.
  rewrite (get_dict _ _ _ D0), <- sub_pick. cbn [rbind].
  rewrite (get_dict _ "title" _ D1). cbn [rbind].
  rewrite (get_dict _ "thumbnail" _ D1), <- sub_pick. cbn [rbind].
  rewrite (get_dict _ _ _ D2). cbn [rbind].
  rewrite (last_url_ok _ _ T1). cbn [rbind].
  rewrite (get_dict _ "author" _ D1). cbn [rbind].
  rewrite (get_dict _ "channelThumbnailSupportedRenderers" _ D1), <- sub_pick.
  cbn [rbind].
  rewrite (get_dict _ _ _ D3), <- sub_pick. cbn [rbind].
  rewrite (get_dict _ _ _ D4), <- sub_pick. cbn [rbind].
  rewrite (get_dict _ _ _ D5). cbn [rbind].
  rewrite (last_url_ok _ _ T2). cbn [rbind].
  rewrite (get_dict _ "captions" _ D0), <- sub_pick. cbn [rbind].
  rewrite (get_dict _ _ _ D6), <- sub_pick. cbn [rbind].
  rewrite (get_dict _ _ _ D7). cbn [rbind].
  reflexivity.
Qed.

Ltac get_step :=
  match goal with
  | |- rbind (Py.get ?v ?k ?d) _ = Ok _ -> _ =>
      let D := fresh "D" in
      destruct (is_dict v) eqn:D;
      [ rewrite (get_dict v k d D), <- ?sub_pick; cbn [rbind]
      | let e := fresh "e" in let E := fresh "E" in
        destruct (get_not_dict v k d D) as [e E]; rewrite E; discriminate ]
  | |- rbind (last_url (pick ?o (PList [])) ?d) _ = Ok _ -> _ =>
      let T := fresh "T" in
      destruct (thumbnails_ok o) eqn:T;
      [ rewrite (last_url_ok o d T); cbn [rbind]
      | let e := fresh "e" in let E := fresh "E" in
        destruct (last_url_not_ok o d T) as [e E]; rewrite E; discriminate ]
  end.

Lemma extract_metadata_ok_shaped player_data x :
  extract_metadata player_data = Ok x -> well_shaped player_data = true.
Proof.
  unfold extract_metadata, well_shaped, channel_renderer. cbv zeta.
  repeat get_step. intros _.
  repeat match goal with H : _ = true |- _ => rewrite H; clear H end.
  reflexivity.
Qed.

Lemma map_result_Forall2 {A B} (f : A -> result B) (l : list A) (l' : list B) :
  map_result f l = Ok l' <-> Forall2 (fun x y => f x = Ok y) l l'.
Proof.
  revert l'. induction l as [|x l IH]; intro l'; simpl.
  - split.
    + intro H. injection H as <-. constructor.
    + intro H. inversion H. reflexivity.
  - split.
    + destruct (f x) as [y|e] eqn:E; cbn [rbind]; [|discriminate].
      destruct (map_result f l) as [ys|e]; cbn [rbind]; [|discriminate].
      intro H. injection H as <-. constructor; [exact E|]. apply IH. reflexivity.
    + intro H. inversion H as [|? y ? ys Hy Hys]; subst.
      rewrite Hy. cbn [rbind]. apply IH in Hys. rewrite Hys. reflexivity.
Qed.

Lemma Forall2_iff {A B} (R R' : A -> B -> Prop) l l' :
  (forall x y, R x y <-> R' x y) -> Forall2 R l l' <-> Forall2 R' l l'.
Proof.
  intro H. split; intro F; induction F; constructor; auto; apply H; assumption.
Qed.

Lemma language_entry_iff caption entry :
  language_entry caption = Ok entry <-> language_entry_of caption entry.
Proof.
  unfold language_entry, language_entry_of. split.
  - destruct (Py.getitem caption "languageCode") as [code|] eqn:E1;
      cbn [rbind]; [|discriminate].
    destruct (Py.getitem caption "name") as [name|] eqn:E2;
      cbn [rbind]; [|discriminate].
    destruct (Py.getitem name "simpleText") as [simple|] eqn:E3;
      cbn [rbind]; [|discriminate].
    intro H. injection H as <-. exists code, name, simple. auto.
  - intros (code & name & simple & E1 & E2 & E3 & ->).
    rewrite E1. cbn [rbind]. rewrite E2. cbn [rbind]. rewrite E3. reflexivity.
Qed.

Lemma available_languages_iff tracks entries :
  available_languages (PList tracks) = Ok entries <->
  Forall2 language_entry_of tracks entries.
Proof.
  unfold available_languages. cbn [Py.iter rbind].
  rewrite map_result_Forall2. apply Forall2_iff. exact language_entry_iff.
Qed.

(** The claim of C7 at a track that has no [languageCode] and at a
    thumbnail entry that has no [url]: both raise [KeyError], and the
    request for the languages of that video is answered with 500. *)
Lemma missing_field_raises :
  available_languages (PList [PDict [("baseUrl", PStr Sample.en_url)]])
    = Raise (mk_exn KeyError "'languageCode'") /\
  extract_metadata Sample.no_url_data = Raise (mk_exn KeyError "'url'") /\
  fst (fst (serve Sample.w_no_code Sample.g
              (Sample.captions_request Sample.key [("video_id", "abc")])))
    = jsonify [("error", PStr "'languageCode'")] 500.
Proof. repeat split; reflexivity. Qed.

(** C7, amended.  Extraction of the video fields and of the track list
    returns, and returns each field or its default ([Unknown Title],
    [No Thumbnail Available], [Unknown Channel], [No Channel Logo
    Available], the empty list), exactly when every object on which the code
    calls [get] is a dict and a non-empty thumbnail list ends in a dict
    with a [url]: any key may be missing, and on the empty response every
    default is returned.  The subscripts are not total: the language list
    is produced exactly when every track has [languageCode] and a [name]
    with [simpleText]. *)
Theorem extraction_total_on_dicts :
  (forall player_data,
     well_shaped player_data = true ->
     extract_metadata player_data = Ok (expected_metadata player_data)) /\
  (forall player_data x,
     extract_metadata player_data = Ok x -> well_shaped player_data = true) /\
  extract_metadata (PDict [])
    = Ok ({| video_title := PStr "Unknown Title";
             thumbnail := PStr "No Thumbnail Available";
             channel_name := PStr "Unknown Channel";
             channel_logo := PStr "No Channel Logo Available" |}, PList []) /\
  (forall tracks entries,
     available_languages (PList tracks) = Ok entries <->
     Forall2 language_entry_of tracks entries).
Proof.
  split; [exact extract_metadata_well_shaped|].
  split; [exact extract_metadata_ok_shaped|].
  split; [reflexivity|exact available_languages_iff].
Qed.

Lemma extraction_total_on_dicts_witness :
  extract_metadata Sample.player_data
  = Ok (Sample.meta,
        PList [Sample.track "en" "English" Sample.en_url;
               Sample.track "fr" "French" Sample.fr_url]).
Proof.
  exact (proj1 extraction_total_on_dicts Sample.player_data eq_refl).
Defined.

(** ** Caption records *)

Lemma text_or_empty_text e :
  text_or_empty e = match text e with Some s => s | None => ""%string end.
Proof.
  unfold text_or_empty. destruct (text e) as [[|c s]|]; reflexivity.
Qed.

Lemma parse_text_iff w e r : parse_text w e = Ok r <-> record_of w e r.
Proof.
  unfold parse_text, record_of, float_attr. rewrite <- text_or_empty_text. split.
  - destruct (Py.assoc "start" (attrib e)) as [s|];
      destruct (Py.assoc "dur" (attrib e)) as [d|];
      repeat match goal with
        | |- context [float_of_str w ?x] => destruct (float_of_str w x); cbn [rbind]
        end;
      cbn [rbind]; try discriminate;
      intro H; injection H as <-; auto.
  - destruct r as [rs rd rt]. cbn [start duration caption_text].
    intros (Hs & Hd & ->).
    destruct (Py.assoc "start" (attrib e)) as [s|];
      destruct (Py.assoc "dur" (attrib e)) as [d|];
      rewrite ?Hs, ?Hd; cbn [rbind]; rewrite ?Hd; subst; reflexivity.
Qed.

Lemma parse_text_total w e :
  numeric_attrs w e -> exists r, parse_text w e = Ok r.
Proof.
  intro H. unfold parse_text, float_attr.
  destruct (Py.assoc "start" (attrib e)) as [s|] eqn:Es.
  - destruct (H "start"%string s (or_introl eq_refl) Es) as [f ->]. cbn [rbind].
    destruct (Py.assoc "dur" (attrib e)) as [d|] eqn:Ed.
    + destruct (H "dur"%string d (or_intror eq_refl) Ed) as [f' ->].
      eexists. reflexivity.
    + eexists. reflexivity.
  - cbn [rbind]. destruct (Py.assoc "dur" (attrib e)) as [d|] eqn:Ed.
    + destruct (H "dur"%string d (or_intror eq_refl) Ed) as [f' ->].
      eexists. reflexivity.
    + eexists. reflexivity.
Qed.

Lemma map_result_total {A B} (f : A -> result B) (P : A -> Prop) (l : list A) :
  (forall x, P x -> exists y, f x = Ok y) ->
  Forall P l -> exists l', map_result f l = Ok l'.
Proof.
  intros Hf. induction 1 as [|x l Hx _ IH]; simpl.
  - eexists. reflexivity.
  - destruct (Hf x Hx) as [y ->]. destruct IH as [l' ->]. eexists. reflexivity.
Qed.

Lemma parse_captions_iff w root recs :
  parse_captions w root = Ok recs <->
  Forall2 (record_of w)
    (filter (fun c => String.eqb (tag c) "text") (children root)) recs.
Proof.
  unfold parse_captions, findall. rewrite map_result_Forall2.
  apply Forall2_iff. intros e r. apply parse_text_iff.
Qed.

(** The claim of C3 at a document whose [start] is the word [soon]: the
    parser gives the root, [float] rejects the attribute, and no record is
    produced. *)
Lemma non_numeric_start_raises :
  ET_fromstring Sample.w Sample.bad_xml_text = Ok Sample.bad_xml_root /\
  findall "text" Sample.bad_xml_root
    = [Element "text" [("start", "soon")] (Some "Hello") []] /\
  parse_captions Sample.w Sample.bad_xml_root
    = Raise (mk_exn ValueError "could not convert string to float: 'soon'").
Proof. repeat split; reflexivity. Qed.

(** C3, amended.  For a caption document whose [text] children carry only
    [start] and [dur] attributes that [float] accepts, parsing produces one
    record per [text] child of the root, in document order, with [start]
    and [duration] the float values of the attributes ([0.0] when absent)
    and [text] the element's text (the empty string when absent).  In
    general the record list is produced exactly when it is made so. *)
Theorem one_record_per_text (w : world) (root : element) :
  (Forall (numeric_attrs w)
     (filter (fun c => String.eqb (tag c) "text") (children root)) ->
   exists recs,
     parse_captions w root = Ok recs /\
     List.length recs
       = List.length (filter (fun c => String.eqb (tag c) "text") (children root)) /\
     Forall2 (record_of w)
       (filter (fun c => String.eqb (tag c) "text") (children root)) recs) /\
  (forall recs,
     parse_captions w root = Ok recs <->
     Forall2 (record_of w)
       (filter (fun c => String.eqb (tag c) "text") (children root)) recs).
Proof.
  split; [|intro recs; apply parse_captions_iff].
  intro H.
  destruct (map_result_total (parse_text w) (numeric_attrs w) _
              (parse_text_total w) H) as [recs E].
  exists recs. split; [exact E|].
  apply parse_captions_iff in E. split; [|exact E].
  symmetry. eapply Forall2_length. exact E.
Qed.

Lemma one_record_per_text_witness :
  exists recs,
    parse_captions Sample.w Sample.xml_root = Ok recs /\
    List.length recs = 3%nat /\
    Forall2 (record_of Sample.w)
      (filter (fun c => String.eqb (tag c) "text") (children Sample.xml_root)) recs.
Proof.
  apply (proj1 (one_record_per_text Sample.w Sample.xml_root)).
  repeat constructor; intros name s [-> | ->]; cbn; intro H;
    try discriminate; injection H as <-; eexists; reflexivity.
Defined.

(** ** The answers of [get_captions] *)

Lemma get_captions_video_id w req g video_id :
  args_get req "video_id" = Some video_id ->
  video_id <> ""%string ->
  get_captions w req g =
    try_except
      (get_captions_try w video_id (args_get req "language") (timestamps_flag req))
      (get_captions_except video_id) g.
Proof.
  intros Hv Hne. unfold get_captions. rewrite Hv.
  destruct video_id as [|c s]; [contradiction|]. reflexivity.
Qed.

Lemma try_except_ok {A} (m : M A) h g a g' t :
  m g = (Ok a, g', t) -> try_except m h g = (Ok a, g', t).
Proof. intro H. unfold try_except. rewrite H. reflexivity. Qed.

(** The claim of C6 at a video whose one track is named by [runs]: the
    track list is there and not empty, and the answer is a 500. *)
Lemma runs_named_track_fails :
  got_metadata Sample.w_runs "abc" Sample.meta (PList [Sample.runs_track]) /\
  serve Sample.w_runs Sample.g
    (Sample.captions_request Sample.key [("video_id", "abc")])
  = (jsonify [("error", PStr "'simpleText'")] 500, Sample.g,
     [EvView "get_captions"; EvInnerTube "WEB"; EvPlayer "abc";
      EvLogError "Error while fetching captions for video_id abc: 'simpleText'"]).
Proof.
  split; [|reflexivity].
  eexists _, _. repeat split; reflexivity.
Qed.

(** C6, amended.  For a request with a [video_id] and without a language,
    when the player response is well enough formed for the video fields to
    be extracted and [captionTracks] is a non-empty list of tracks that
    each have [languageCode] and a [name] with [simpleText], the answer is
    200 with the video id, the four video fields and, under
    [available_languages], one entry per track, in order, made of those
    two values. *)
Theorem languages_listed (w : world) (g : globals) (req : request)
    (video_id : string) (meta : metadata) (tracks entries : list pyval) :
  args_get req "video_id" = Some video_id ->
  video_id <> ""%string ->
  opt_truthy (args_get req "language") = false ->
  got_metadata w video_id meta (PList tracks) ->
  tracks <> [] ->
  Forall2 language_entry_of tracks entries ->
  get_captions w req g =
    (Ok (jsonify
           (("video_id", PStr video_id) :: metadata_fields meta
              ++ [("available_languages", PList entries)]) 200),
     g, [EvInnerTube "WEB"; EvPlayer video_id]).
Proof.
  intros Hv Hne Hl (c & pd & Hc & Hp & Hm) Ht He.
  rewrite (get_captions_video_id w req g video_id Hv Hne).
  apply try_except_ok. unfold get_captions_try.
  apply available_languages_iff in He.
  destruct tracks as [|t0 tracks]; [contradiction|].
  run. reflexivity.
Qed.

Lemma languages_listed_witness :
  get_captions Sample.w
    (Sample.captions_request Sample.key [("video_id", "abc")]) Sample.g
  = (Ok (jsonify
           (("video_id", PStr "abc") :: metadata_fields Sample.meta
              ++ [("available_languages",
                   PList [PDict [("languageCode", PStr "en"); ("name", PStr "English")];
                          PDict [("languageCode", PStr "fr"); ("name", PStr "French")]])])
           200),
     Sample.g, [EvInnerTube "WEB"; EvPlayer "abc"]).
Proof.
  apply (languages_listed Sample.w Sample.g
           (Sample.captions_request Sample.key [("video_id", "abc")])
           "abc" Sample.meta
           [Sample.track "en" "English" Sample.en_url;
            Sample.track "fr" "French" Sample.fr_url]).
  - reflexivity.
  - discriminate.
  - reflexivity.
  - eexists _, _. repeat split; reflexivity.
  - discriminate.
  - repeat constructor; eexists _, _, _; repeat split; reflexivity.
Defined.

Lemma get_captions_records w g req video_id language meta parsed_captions :
  args_get req "video_id" = Some video_id ->
  video_id <> ""%string ->
  args_get req "language" = Some language ->
  language <> ""%string ->
  got_records w video_id language meta parsed_captions ->
  exists t,
    get_captions w req g =
      (Ok (jsonify
             (("video_id", PStr video_id) :: metadata_fields meta
                ++ [("languageCode", PStr language);
                    if timestamps_flag req
                    then ("timestamped_captions",
                          PList (map caption_to_py parsed_captions))
                    else ("captions", PStr (concatenate parsed_captions))]) 200),
       g, t).
Proof.
  intros Hv Hne Hl Hlne
    (sel & url & raw & root & (caps & (c & pd & Hc & Hp & Hm) & Tc & Hf & Ts)
       & Hu & Hg & Hx & Hr).
  rewrite (get_captions_video_id w req g video_id Hv Hne).
  rewrite Hl.
  destruct language as [|c0 l0]; [contradiction|].
  destruct (timestamps_flag req); eexists; apply try_except_ok;
    unfold get_captions_try;
    cbn [opt_truthy opt_text PyStr.nonempty negb];
    run; reflexivity.
Qed.

Lemma timestamps_flag_iff req :
  timestamps_flag req = true <->
  exists s, args_get req "timestamps" = Some s /\ PyStr.lower s = "true"%string.
Proof.
  unfold timestamps_flag. rewrite String.eqb_eq.
  destruct (args_get req "timestamps") as [s|].
  - split; [intro H; exists s; auto|]. intros (s' & E & H). congruence.
  - split; [discriminate|]. intros (s' & E & _). discriminate.
Qed.

(** The claim of C4 when the caption server cannot be reached: the video
    has a track for the language asked for, and the answer is a 500 with
    neither [captions] nor [timestamped_captions]. *)
Lemma failed_download_has_no_mode :
  got_track Sample.w_offline "abc" "en" Sample.meta
    (Sample.track "en" "English" Sample.en_url) /\
  serve Sample.w_offline Sample.g
    (Sample.captions_request Sample.key
       [("video_id", "abc"); ("language", "en"); ("timestamps", "true")])
  = (jsonify [("error", PStr "Connection aborted.")] 500, Sample.g,
     [EvView "get_captions"; EvInnerTube "WEB"; EvPlayer "abc";
      EvRequestsGet (PStr Sample.en_url);
      EvLogError "Error while fetching captions for video_id abc: Connection aborted."]).
Proof.
  split; [|reflexivity].
  eexists. split; [eexists _, _; repeat split; reflexivity|].
  repeat split; reflexivity.
Qed.

(** C4, amended.  For a request with a [video_id] and a language, when the
    [try] block gets as far as the parsed records (the track of the
    language exists, its document is downloaded and parsed), the answer is
    200 in one of two modes chosen by [timestamps]: the flag is true exactly
    when the parameter is present and its lowered value is [true]; when
    true the records are returned under [timestamped_captions], when false
    one string is returned under [captions]. *)
Theorem mode_by_timestamps (w : world) (g : globals) (req : request)
    (video_id language : string) (meta : metadata) (parsed_captions : list caption) :
  args_get req "video_id" = Some video_id ->
  video_id <> ""%string ->
  args_get req "language" = Some language ->
  language <> ""%string ->
  got_records w video_id language meta parsed_captions ->
  (timestamps_flag req = true <->
   exists s, args_get req "timestamps" = Some s /\ PyStr.lower s = "true"%string) /\
  exists t,
    get_captions w req g =
      (Ok (jsonify
             (("video_id", PStr video_id) :: metadata_fields meta
                ++ [("languageCode", PStr language);
                    if timestamps_flag req
                    then ("timestamped_captions",
                          PList (map caption_to_py parsed_captions))
                    else ("captions", PStr (concatenate parsed_captions))]) 200),
       g, t).
Proof.
  intros Hv Hne Hl Hlne Hr. split; [apply timestamps_flag_iff|].
  eapply get_captions_records; eassumption.
Qed.

Ltac sample_records :=
  eexists _, _, _, _;
  split;
  [ eexists; split;
    [ eexists _, _; repeat split; reflexivity | repeat split; reflexivity ]
  | repeat split; reflexivity ].

Lemma mode_by_timestamps_witness :
  timestamps_flag
    (Sample.captions_request Sample.key
       [("video_id", "abc"); ("language", "en"); ("timestamps", "TRUE")]) = true /\
  exists t,
    get_captions Sample.w
      (Sample.captions_request Sample.key
         [("video_id", "abc"); ("language", "en"); ("timestamps", "TRUE")])
      Sample.g
    = (Ok (jsonify
             (("video_id", PStr "abc") :: metadata_fields Sample.meta
                ++ [("languageCode", PStr "en");
                    ("timestamped_captions",
                     PList (map caption_to_py Sample.records))]) 200),
       Sample.g, t).
Proof.
  assert (R : got_records Sample.w "abc" "en" Sample.meta Sample.records)
    by sample_records.
  destruct (mode_by_timestamps Sample.w Sample.g
              (Sample.captions_request Sample.key
                 [("video_id", "abc"); ("language", "en"); ("timestamps", "TRUE")])
              "abc" "en" Sample.meta Sample.records
              eq_refl ltac:(discriminate) eq_refl ltac:(discriminate) R)
    as [Hflag Hrun].
  split; [reflexivity|exact Hrun].
Defined.

(** ** The flat transcript *)

Lemma prefix_other_char c old c' s :
  Ascii.eqb c c' = false -> prefix (String c old) (String c' s) = false.
Proof.
  intro H. cbn [prefix]. destruct (ascii_dec c c') as [->|]; [|reflexivity].
  rewrite Ascii.eqb_refl in H. discriminate.
Qed.

Lemma replace_absent c old new s :
  PyStr.mem_char c s = false -> PyStr.replace (String c old) new s = s.
Proof.
  unfold PyStr.replace.
  induction s as [|c' s IH]; [reflexivity|].
  cbn [PyStr.mem_char PyStr.replace_from]. intro H.
  apply orb_false_iff in H as [Hc Hs].
  rewrite (prefix_other_char c old c' s Hc), (IH Hs). reflexivity.
Qed.

Lemma mem_char_append c a b :
  PyStr.mem_char c (a ++ b) = PyStr.mem_char c a || PyStr.mem_char c b.
Proof.
  induction a as [|c' a IH]; [reflexivity|].
  cbn [String.append PyStr.mem_char]. rewrite IH, orb_assoc. reflexivity.
Qed.

Lemma mem_char_join c sep parts :
  PyStr.mem_char c sep = false ->
  Forall (fun p => PyStr.mem_char c p = false) parts ->
  PyStr.mem_char c (PyStr.join sep parts) = false.
Proof.
  intros Hsep. induction 1 as [|p parts Hp _ IH]; [reflexivity|].
  cbn [PyStr.join]. destruct parts as [|q parts]; [exact Hp|].
  rewrite !mem_char_append, Hp, Hsep, IH. reflexivity.
Qed.

Lemma filter_all {A} (f : A -> bool) (l : list A) :
  Forall (fun x => f x = true) l -> filter f l = l.
Proof.
  induction 1 as [|x l Hx _ IH]; [reflexivity|].
  cbn [filter]. rewrite Hx, IH. reflexivity.
Qed.

Lemma concatenate_plain parsed_captions :
  Forall plain_text (map caption_text parsed_captions) ->
  concatenate parsed_captions = PyStr.join " " (map caption_text parsed_captions).
Proof.
  intro H. unfold concatenate, PyStr.newline.
  rewrite filter_all
    by (eapply Forall_impl; [|exact H]; intros s (Hn & _ & _); exact Hn).
  rewrite (replace_absent "&"%char)
    by (apply mem_char_join; [reflexivity|];
        eapply Forall_impl; [|exact H]; intros s (_ & Ha & _); exact Ha).
  apply (replace_absent "010"%char).
  apply mem_char_join; [reflexivity|].
  eapply Forall_impl; [|exact H]. intros s (_ & _ & Hl). exact Hl.
Qed.

(** The claim of C5 at the sample document, whose second text holds
    [&#39;] and whose third is empty, and at a text of two lines: the
    string returned is not the texts joined by spaces. *)
Lemma transcript_is_altered :
  parse_captions Sample.w Sample.xml_root = Ok Sample.records /\
  serve Sample.w Sample.g
    (Sample.captions_request Sample.key [("video_id", "abc"); ("language", "en")])
  = (jsonify
       (("video_id", PStr "abc") :: metadata_fields Sample.meta
          ++ [("languageCode", PStr "en"); ("captions", PStr "Hello it ; s")]) 200,
     Sample.g,
     [EvView "get_captions"; EvInnerTube "WEB"; EvPlayer "abc";
      EvRequestsGet (PStr Sample.en_url)]) /\
  PyStr.join " " (map caption_text Sample.records) = "Hello it&#39;s "%string /\
  concatenate [ {| start := float_zero; duration := float_zero;
                   caption_text := "two" ++ PyStr.newline ++ "lines" |} ]
    = "two  lines"%string.
Proof. repeat split; reflexivity. Qed.

(** C5, amended.  When [timestamps] is false and the [try] block gets as
    far as the parsed records, the value under [captions] is made of the
    texts of the records that are not empty, in document order, joined by
    single spaces, in which every [&#39;] is then replaced by [ ; ] and
    every line break by two spaces.  It is the plain join of all the texts
    when none of them is empty or holds [&] or a line break. *)
Theorem flat_transcript (w : world) (g : globals) (req : request)
    (video_id language : string) (meta : metadata) (parsed_captions : list caption) :
  args_get req "video_id" = Some video_id ->
  video_id <> ""%string ->
  args_get req "language" = Some language ->
  language <> ""%string ->
  timestamps_flag req = false ->
  got_records w video_id language meta parsed_captions ->
  exists transcript t,
    get_captions w req g =
      (Ok (jsonify
             (("video_id", PStr video_id) :: metadata_fields meta
                ++ [("languageCode", PStr language);
                    ("captions", PStr transcript)]) 200),
       g, t) /\
    transcript =
      PyStr.replace PyStr.newline "  "
        (PyStr.replace "&#39;" " ; "
           (PyStr.join " "
              (filter PyStr.nonempty (map caption_text parsed_captions)))) /\
    (Forall plain_text (map caption_text parsed_captions) ->
     transcript = PyStr.join " " (map caption_text parsed_captions)).
Proof.
  intros Hv Hne Hl Hlne Hts Hr.
  destruct (get_captions_records w g req video_id language meta parsed_captions
              Hv Hne Hl Hlne Hr) as [t Ht].
  rewrite Hts in Ht.
  exists (concatenate parsed_captions), t.
  split; [exact Ht|]. split; [reflexivity|apply concatenate_plain].
Qed.

Lemma flat_transcript_witness :
  exists transcript t,
    get_captions Sample.w
      (Sample.captions_request Sample.key [("video_id", "abc"); ("language", "en")])
      Sample.g
    = (Ok (jsonify
             (("video_id", PStr "abc") :: metadata_fields Sample.meta
                ++ [("languageCode", PStr "en");
                    ("captions", PStr transcript)]) 200),
       Sample.g, t) /\
    transcript = "Hello it ; s"%string.
Proof.
  assert (R : got_records Sample.w "abc" "en" Sample.meta Sample.records)
    by sample_records.
  destruct (flat_transcript Sample.w Sample.g
              (Sample.captions_request Sample.key
                 [("video_id", "abc"); ("language", "en")])
              "abc" "en" Sample.meta Sample.records
              eq_refl ltac:(discriminate) eq_refl ltac:(discriminate) eq_refl R)
    as (transcript & t & Hrun & Heq & _).
  exists transcript, t. split; [exact Hrun|]. rewrite Heq. reflexivity.
Defined.

(** ** Sample runs of the two remaining statements *)

Lemma exceptions_become_500_witness :
  (exists t,
     serve Sample.w_offline Sample.g
       (Sample.captions_request Sample.key [("video_id", "abc"); ("language", "en")])
     = (jsonify [("error", PStr "Connection aborted.")] 500, Sample.g, t)) /\
  never_raises
    (get_captions Sample.w_offline
       (Sample.captions_request Sample.key [("video_id", "abc"); ("language", "en")])).
Proof.
  destruct (exceptions_become_500 Sample.w_offline Sample.g
              (Sample.captions_request Sample.key
                 [("video_id", "abc"); ("language", "en")])
              "abc" eq_refl eq_refl eq_refl eq_refl ltac:(discriminate))
    as (Hstep & _ & Hnever).
  split; [|exact Hnever].
  apply (Hstep Sample.connection_error).
  apply (raises_download _ _ _ _ Sample.meta
           (Sample.track "en" "English" Sample.en_url) (PStr Sample.en_url)).
  - reflexivity.
  - eexists. split; [eexists _, _; repeat split; reflexivity|].
    repeat split; reflexivity.
  - reflexivity.
  - reflexivity.
Defined.

Lemma stateless_one_shot_witness :
  serve Sample.w Sample.g
    (Sample.captions_request Sample.key [("video_id", "abc"); ("language", "en")])
  = serve Sample.w_again Sample.g
      (Sample.captions_request Sample.key [("video_id", "abc"); ("language", "en")]) /\
  snd (fst (serve Sample.w Sample.g
              (Sample.captions_request Sample.key
                 [("video_id", "abc"); ("language", "en")]))) = Sample.g /\
  serve_all Sample.w Sample.g
    [Sample.captions_request Sample.key [("video_id", "abc")];
     Sample.captions_request [] [("video_id", "abc")]]
  = (map (fun r => fst (fst (serve Sample.w Sample.g r)))
       [Sample.captions_request Sample.key [("video_id", "abc")];
        Sample.captions_request [] [("video_id", "abc")]],
     Sample.g).
Proof.
  apply (stateless_one_shot Sample.w Sample.w_again Sample.g).
  constructor.
  - intros name video_id. cbn. destruct (String.eqb video_id "abc"); reflexivity.
  - reflexivity.
  - reflexivity.
  - reflexivity.
Defined.

(** * Further properties of the handlers *)

(** ** The early answers of [get_captions] *)

(** X1.  A request of [/captions] with the right key and no [video_id], or
    an empty one, is answered 400 with [Missing video_id parameter]; the
    handler makes no call and logs nothing, whatever the other
    parameters. *)
Theorem missing_video_id_400 (w : world) (g : globals) (req : request) :
  headers_get (headers req) "x-api-key" = API_KEY g ->
  method req = GET ->
  path req = "/captions" ->
  opt_truthy (args_get req "video_id") = false ->
  serve w g req =
    (jsonify [("error", PStr "Missing video_id parameter")] 400, g,
     [EvView "get_captions"]).
Proof.
  intros Hk Hm Hp Hv. rewrite (serve_captions w g req Hk Hm Hp).
  unfold get_captions. rewrite Hv. reflexivity.
Qed.

Lemma missing_video_id_400_witness :
  serve Sample.w_offline Sample.g
    (Sample.captions_request Sample.key [("video_id", ""); ("language", "en")])
  = (jsonify [("error", PStr "Missing video_id parameter")] 400, Sample.g,
     [EvView "get_captions"]).
Proof.
  apply (missing_video_id_400 Sample.w_offline Sample.g
           (Sample.captions_request Sample.key [("video_id", ""); ("language", "en")]));
    reflexivity.
Defined.

(** X2.  When the value under [captionTracks] is missing, empty or
    otherwise false, the answer is 404 with [No captions available for this
    video.] and the four video fields, whatever language and timestamps were
    asked for; nothing is downloaded. *)
Theorem no_captions_404 (w : world) (g : globals) (req : request)
    (video_id : string) (meta : metadata) (captions : pyval) :
  args_get req "video_id" = Some video_id ->
  video_id <> ""%string ->
  got_metadata w video_id meta captions ->
  Py.truthy captions = false ->
  get_captions w req g =
    (Ok (jsonify
           (("error", PStr "No captions available for this video.")
              :: metadata_fields meta) 404),
     g, [EvInnerTube "WEB"; EvPlayer video_id]).
Proof.
  intros Hv Hne (c & pd & Hc & Hp & Hm) Ht.
  rewrite (get_captions_video_id w req g video_id Hv Hne).
  apply try_except_ok. unfold get_captions_try. run. reflexivity.
Qed.

Lemma no_captions_404_witness :
  get_captions silent_world
    (Sample.captions_request Sample.key
       [("video_id", "abc"); ("language", "en"); ("timestamps", "true")]) Sample.g
  = (Ok (jsonify
           (("error", PStr "No captions available for this video.")
              :: metadata_fields Sample.meta) 404),
     Sample.g, [EvInnerTube "WEB"; EvPlayer "abc"]).
Proof.
  apply (no_captions_404 silent_world Sample.g
           (Sample.captions_request Sample.key
              [("video_id", "abc"); ("language", "en"); ("timestamps", "true")])
           "abc" Sample.meta (PList [])).
  - reflexivity.
  - discriminate.
  - eexists _, _. repeat split; reflexivity.
  - reflexivity.
Defined.

(** ** The track lookup *)

Lemma first_track_skips pre rest language :
  Forall (other_language language) pre ->
  first_track (pre ++ rest) language = first_track rest language.
Proof.
  induction 1 as [|c pre (code & Hc & Hne) _ IH]; [reflexivity|].
  cbn [app first_track]. rewrite Hc. cbn [rbind]. rewrite Hne. exact IH.
Qed.

(** X3.  The lookup returns the first track of the language: the tracks
    before it have other languages, and the tracks after it are not looked
    at, whatever they are. *)
Theorem first_track_of_language (pre post : list pyval) (c : pyval)
    (language : string) :
  Forall (other_language language) pre ->
  of_language language c ->
  find_caption (PList (pre ++ c :: post)) language = Ok c.
Proof.
  intros Hpre (code & Hc & He). unfold find_caption. cbn [Py.iter rbind].
  rewrite (first_track_skips pre (c :: post) language Hpre).
  cbn [first_track]. rewrite Hc. cbn [rbind]. rewrite He. reflexivity.
Qed.

Lemma first_track_of_language_witness :
  find_caption
    (PList ([Sample.track "fr" "French" Sample.fr_url]
              ++ Sample.track "en" "English" Sample.en_url
              :: [PStr "not a track"; Sample.track "en" "English (auto)" Sample.fr_url]))
    "en"
  = Ok (Sample.track "en" "English" Sample.en_url).
Proof.
  apply (first_track_of_language
           [Sample.track "fr" "French" Sample.fr_url]
           [PStr "not a track"; Sample.track "en" "English (auto)" Sample.fr_url]).
  - repeat constructor. eexists. split; reflexivity.
  - eexists. split; reflexivity.
Defined.

(** X4.  A track before the first match on which the [languageCode]
    subscript raises makes the lookup raise that exception, even when a later
    track has the language. *)
Theorem bad_track_before_match (pre post : list pyval) (bad : pyval)
    (language : string) (e : exn) :
  Forall (other_language language) pre ->
  Py.getitem bad "languageCode" = Raise e ->
  find_caption (PList (pre ++ bad :: post)) language = Raise e.
Proof.
  intros Hpre Hb. unfold find_caption. cbn [Py.iter rbind].
  rewrite (first_track_skips pre (bad :: post) language Hpre).
  cbn [first_track]. rewrite Hb. reflexivity.
Qed.

Lemma bad_track_before_match_witness :
  find_caption
    (PList ([Sample.track "fr" "French" Sample.fr_url]
              ++ PDict [("baseUrl", PStr Sample.en_url)]
              :: [Sample.track "en" "English" Sample.en_url]))
    "en"
  = Raise (mk_exn KeyError "'languageCode'").
Proof.
  apply (bad_track_before_match
           [Sample.track "fr" "French" Sample.fr_url]
           [Sample.track "en" "English" Sample.en_url]).
  - repeat constructor. eexists. split; reflexivity.
  - reflexivity.
Defined.

Lemma first_track_sound tracks language c :
  first_track tracks language = Ok c ->
  c = PNone \/ (In c tracks /\ of_language language c).
Proof.
  induction tracks as [|x tracks IH]; cbn [first_track].
  - intro H. injection H as <-. left. reflexivity.
  - destruct (Py.getitem x "languageCode") as [code|e] eqn:Hx;
      cbn [rbind]; [|discriminate].
    destruct (Py.eq_str code language) eqn:He.
    + intro H. injection H as <-. right. split; [left; reflexivity|].
      exists code. auto.
    + intro H. destruct (IH H) as [->|[Hin Hof]]; [left; reflexivity|].
      right. split; [right; exact Hin|exact Hof].
Qed.

(** X5.  A track the lookup selects is one of the tracks of the list, is
    a dict, and has the language asked for as its [languageCode]: no other
    track can pass the test that follows the lookup. *)
Theorem selected_track_has_language (tracks : list pyval) (language : string)
    (c : pyval) :
  find_caption (PList tracks) language = Ok c ->
  Py.truthy c = true ->
  In c tracks /\ is_dict c = true /\
  Py.getitem c "languageCode" = Ok (PStr language).
Proof.
  unfold find_caption. cbn [Py.iter rbind]. intros H Ht.
  destruct (first_track_sound tracks language c H) as [->|[Hin (code & Hc & He)]];
    [discriminate|].
  split; [exact Hin|].
  destruct code; try discriminate. apply String.eqb_eq in He. subst s.
  split; [|exact Hc].
  destruct c; try discriminate; reflexivity.
Qed.

Lemma selected_track_has_language_witness :
  In (Sample.track "fr" "French" Sample.fr_url)
    [Sample.track "en" "English" Sample.en_url;
     Sample.track "fr" "French" Sample.fr_url] /\
  is_dict (Sample.track "fr" "French" Sample.fr_url) = true /\
  Py.getitem (Sample.track "fr" "French" Sample.fr_url) "languageCode"
    = Ok (PStr "fr").
Proof.
  apply (selected_track_has_language
           [Sample.track "en" "English" Sample.en_url;
            Sample.track "fr" "French" Sample.fr_url] "fr");
    reflexivity.
Defined.

(** X6.  When every track has a [languageCode] and none is the language
    asked for, the answer is 404 with a message that names the language,
    and nothing is downloaded. *)
Theorem unknown_language_404 (w : world) (g : globals) (req : request)
    (video_id language : string) (meta : metadata) (tracks : list pyval) :
  args_get req "video_id" = Some video_id ->
  video_id <> ""%string ->
  args_get req "language" = Some language ->
  language <> ""%string ->
  got_metadata w video_id meta (PList tracks) ->
  tracks <> [] ->
  Forall (other_language language) tracks ->
  get_captions w req g =
    (Ok (jsonify
           (("error",
             PStr ("No captions available for the selected language: " ++ language))
              :: metadata_fields meta) 404),
     g, [EvInnerTube "WEB"; EvPlayer video_id]).
Proof.
  intros Hv Hne Hl Hlne (c & pd & Hc & Hp & Hm) Ht Hall.
  rewrite (get_captions_video_id w req g video_id Hv Hne).
  apply try_except_ok. unfold get_captions_try. rewrite Hl.
  assert (Hf : find_caption (PList tracks) language = Ok PNone).
  { unfold find_caption. cbn [Py.iter rbind].
    rewrite <- (app_nil_r tracks).
    rewrite (first_track_skips tracks [] language Hall). reflexivity. }
  destruct language as [|c0 l0]; [contradiction|].
  destruct tracks as [|t0 tracks]; [contradiction|].
  cbn [opt_truthy opt_text PyStr.nonempty negb].
  run. reflexivity.
Qed.

Lemma unknown_language_404_witness :
  get_captions Sample.w
    (Sample.captions_request Sample.key [("video_id", "abc"); ("language", "de")])
    Sample.g
  = (Ok (jsonify
           (("error", PStr "No captions available for the selected language: de")
              :: metadata_fields Sample.meta) 404),
     Sample.g, [EvInnerTube "WEB"; EvPlayer "abc"]).
Proof.
  apply (unknown_language_404 Sample.w Sample.g
           (Sample.captions_request Sample.key [("video_id", "abc"); ("language", "de")])
           "abc" "de" Sample.meta
           [Sample.track "en" "English" Sample.en_url;
            Sample.track "fr" "French" Sample.fr_url]).
  - reflexivity.
  - discriminate.
  - reflexivity.
  - discriminate.
  - eexists _, _. repeat split; reflexivity.
  - discriminate.
  - repeat constructor; eexists; split; reflexivity.
Defined.

(** ** The [timestamps] parameter *)

Ltac lower_cases :=
  intros [[] [] [] [] [] [] [] []];
  vm_compute;
  (split;
   [ let H := fresh "H" in
     intro H; first [discriminate H | left; reflexivity | right; reflexivity]
   | let H := fresh "H" in
     intros [H|H]; first [discriminate H | reflexivity] ]).

Lemma lower_char_t : forall x, PyStr.lower_char x = "t"%char <-> (x = "t" \/ x = "T")%char.
Proof. lower_cases. Qed.

Lemma lower_char_r : forall x, PyStr.lower_char x = "r"%char <-> (x = "r" \/ x = "R")%char.
Proof. lower_cases. Qed.

Lemma lower_char_u : forall x, PyStr.lower_char x = "u"%char <-> (x = "u" \/ x = "U")%char.
Proof. lower_cases. Qed.

Lemma lower_char_e : forall x, PyStr.lower_char x = "e"%char <-> (x = "e" \/ x = "E")%char.
Proof. lower_cases. Qed.

Lemma lower_true_iff s : PyStr.lower s = "true"%string <-> spells_true s.
Proof.
  split.
  - destruct s as [|a [|b [|c [|d [|x s]]]]]; cbn [PyStr.lower]; try discriminate.
    intro H. injection H as Ha Hb Hc Hd.
    exists a, b, c, d. split; [reflexivity|].
    rewrite <- lower_char_t, <- lower_char_r, <- lower_char_u, <- lower_char_e.
    auto.
  - intros (a & b & c & d & -> & Ha & Hb & Hc & Hd).
    apply lower_char_t in Ha. apply lower_char_r in Hb.
    apply lower_char_u in Hc. apply lower_char_e in Hd.
    cbn [PyStr.lower]. rewrite Ha, Hb, Hc, Hd. reflexivity.
Qed.

(** X7.  Timestamps are asked for exactly by the sixteen spellings of
    [true] in upper and lower case: four letters, each of either case.
    Any other value, such as [1] or [yes] or [true] with a space, and a
    missing parameter, give the flat transcript. *)
Theorem timestamps_spellings (req : request) :
  timestamps_flag req = true <->
  exists s, args_get req "timestamps" = Some s /\ spells_true s.
Proof.
  rewrite timestamps_flag_iff. split; intros (s & Hs & H); exists s;
    (split; [exact Hs|]); apply lower_true_iff; exact H.
Qed.

(** ** Every run of [get_captions] *)

Ltac walk :=
  repeat first
    [ rewrite bind_call_ok
    | rewrite bind_call_raise
    | rewrite bind_lift_ok
    | rewrite bind_lift_raise
    | progress cbv beta iota zeta
    | progress cbn [fst snd negb]
    | progress unfold ret
    | match goal with
      | |- context [bind (call _ ?r) _ _] => destruct r eqn:?
      | |- context [bind (lift ?r) _ _] => destruct r as [[? ?]|?] eqn:?
      | |- context [bind (lift ?r) _ _] => destruct r eqn:?
      | |- context [negb (Py.truthy ?v)] => destruct (Py.truthy v) eqn:?
      | |- context [negb (opt_truthy ?o)] => destruct (opt_truthy o) eqn:?
      end ].

Lemma try_answers w video_id selected_language timestamps g :
  match get_captions_try w video_id selected_language timestamps g with
  | (Ok r, _, _) => well_formed_answer r
  | (Raise _, _, _) => True
  end.
Proof.
  unfold get_captions_try. walk.
  all: try exact I.
  all: try (destruct timestamps).
  all: eexists; (split; [reflexivity|]); cbn [status jsonify].
  all: first [ left; split; reflexivity
             | right; split; [cbn; auto | eexists; reflexivity] ].
Qed.

(** X8.  Every run of [get_captions] ends with an answer, and the answer
    is a JSON object of one of two kinds: status 200 and no [error] key, or
    status 400, 404 or 500 and a text under [error].  A client can tell
    failure from success by either. *)
Theorem answers_well_formed (w : world) (req : request) (g : globals) :
  exists r t,
    get_captions w req g = (Ok r, g, t) /\ well_formed_answer r.
Proof.
  unfold get_captions.
  destruct (negb (opt_truthy (args_get req "video_id"))).
  - eexists _, _. split; [reflexivity|].
    eexists. split; [reflexivity|]. right. split; [cbn; auto|].
    eexists. reflexivity.
  - unfold try_except.
    pose proof (try_answers w (opt_text (args_get req "video_id"))
                  (args_get req "language") (timestamps_flag req) g) as Ha.
    pose proof (keeps_get_captions_try w (opt_text (args_get req "video_id"))
                  (args_get req "language") (timestamps_flag req) g) as Hg.
    destruct (get_captions_try _ _ _ _ g) as [[[r|e] g1] t1];
      cbn [fst snd] in Hg; subst g1.
    + exists r, t1. split; [reflexivity|exact Ha].
    + eexists _, _. split; [reflexivity|].
      eexists. split; [reflexivity|]. right. split; [cbn; auto|].
      eexists. reflexivity.
Qed.

Lemma try_calls w video_id selected_language timestamps g :
  let t := snd (get_captions_try w video_id selected_language timestamps g) in
  t = [] \/
  t = [EvInnerTube "WEB"] \/
  t = [EvInnerTube "WEB"; EvPlayer video_id] \/
  exists url, t = [EvInnerTube "WEB"; EvPlayer video_id; EvRequestsGet url].
Proof.
  unfold get_captions_try. walk.
  all: try (destruct timestamps).
  all: cbn [snd].
  all: first [ right; left; reflexivity
             | right; right; left; reflexivity
             | right; right; right; eexists; reflexivity ].
Qed.

(** X9.  A run of [get_captions] calls the outside at most three times
    and in one order: the client constructor, then the player for the
    [video_id] of the request, then one download; nothing is called twice or
    retried, and an error is logged once, after the calls. *)
Theorem calls_in_order (w : world) (req : request) (g : globals) :
  call_sequence (opt_text (args_get req "video_id"))
    (snd (get_captions w req g)).
Proof.
  unfold get_captions, call_sequence.
  destruct (negb (opt_truthy (args_get req "video_id"))).
  - exists [], []. cbn. auto.
  - unfold try_except.
    pose proof (try_calls w (opt_text (args_get req "video_id"))
                  (args_get req "language") (timestamps_flag req) g) as Hc.
    cbv zeta in Hc.
    destruct (get_captions_try _ _ _ _ g) as [[[r|e] g1] t1]; cbn [snd] in *.
    + exists t1, []. rewrite app_nil_r. auto.
    + eexists t1, _. split; [reflexivity|]. split; [exact Hc|].
      right. eexists. reflexivity.
Qed.

Lemma find_caption_of_language captions language c :
  find_caption captions language = Ok c ->
  Py.truthy c = true ->
  Py.getitem c "languageCode" = Ok (PStr language).
Proof.
  unfold find_caption. destruct (Py.iter captions) as [tracks|e];
    cbn [rbind]; [|discriminate].
  intros H Ht.
  destruct (first_track_sound tracks language c H) as [->|[_ (code & Hc & He)]];
    [discriminate|].
  destruct code; try discriminate. apply String.eqb_eq in He. subst s. exact Hc.
Qed.

Lemma try_download w video_id selected_language timestamps g url :
  In (EvRequestsGet url)
    (snd (get_captions_try w video_id selected_language timestamps g)) ->
  opt_truthy selected_language = true /\
  exists meta track,
    got_track w video_id (opt_text selected_language) meta track /\
    Py.getitem track "baseUrl" = Ok url.
Proof.
  unfold get_captions_try. walk.
  all: try (destruct timestamps).
  all: cbn [snd In]; intro H.
  all: repeat (destruct H as [H|H]; try discriminate H); try contradiction.
  all: injection H as <-.
  all: split; [reflexivity|].
  all: eexists _, _; split; [|eassumption].
  all: eexists; split; [eexists _, _; repeat split; eassumption|].
  all: repeat split; eassumption.
Qed.

(** X10.  The only address [get_captions] downloads from is the [baseUrl]
    of a track that the player returned for the [video_id] of the request
    and whose [languageCode] is the language of the request: no download
    without both parameters, and none from an address taken from the
    request. *)
Theorem download_only_selected_track (w : world) (req : request) (g : globals)
    (url : pyval) :
  In (EvRequestsGet url) (snd (get_captions w req g)) ->
  exists video_id language meta track,
    args_get req "video_id" = Some video_id /\
    args_get req "language" = Some language /\
    got_track w video_id language meta track /\
    Py.getitem track "languageCode" = Ok (PStr language) /\
    Py.getitem track "baseUrl" = Ok url.
Proof.
  unfold get_captions.
  destruct (args_get req "video_id") as [video_id|] eqn:Hv;
    [|intros []].
  destruct (opt_truthy (Some video_id)) eqn:Hn; cbn [negb]; [|intros []].
  unfold try_except. cbn [opt_text].
  intro H.
  assert (Ht : In (EvRequestsGet url)
                 (snd (get_captions_try w video_id (args_get req "language")
                         (timestamps_flag req) g))).
  { destruct (get_captions_try _ _ _ _ g) as [[[r|e] g1] t1];
      cbn [snd] in *; [exact H|].
    apply in_app_or in H as [H|[H|[]]]; [exact H|discriminate H]. }
  destruct (try_download _ _ _ _ _ _ Ht) as (Hl & meta & track & Hg & Hu).
  destruct (args_get req "language") as [language|]; [|discriminate].
  exists video_id, language, meta, track.
  repeat split; try assumption.
  destruct Hg as (caps & _ & _ & Hf & Hs).
  exact (find_caption_of_language caps language track Hf Hs).
Qed.

Lemma download_only_selected_track_witness :
  exists video_id language meta track,
    args_get (Sample.captions_request Sample.key
                [("video_id", "abc"); ("language", "en")]) "video_id"
      = Some video_id /\
    args_get (Sample.captions_request Sample.key
                [("video_id", "abc"); ("language", "en")]) "language"
      = Some language /\
    got_track Sample.w video_id language meta track /\
    Py.getitem track "languageCode" = Ok (PStr language) /\
    Py.getitem track "baseUrl" = Ok (PStr Sample.en_url).
Proof.
  apply (download_only_selected_track Sample.w
           (Sample.captions_request Sample.key
              [("video_id", "abc"); ("language", "en")])
           Sample.g (PStr Sample.en_url)).
  vm_compute. right. right. left. reflexivity.
Defined.

(** ** What the flat transcript never holds *)

Lemma prefix_one c c' s :
  prefix (String c EmptyString) (String c' s) = Ascii.eqb c c'.
Proof.
  cbn [prefix]. destruct (ascii_dec c c') as [->|Hne].
  - rewrite Ascii.eqb_refl. destruct s; reflexivity.
  - symmetry. apply Ascii.eqb_neq. exact Hne.
Qed.

Lemma replace_char_gone c new s :
  PyStr.mem_char c new = false ->
  PyStr.mem_char c (PyStr.replace (String c EmptyString) new s) = false.
Proof.
  intro Hn. unfold PyStr.replace.
  induction s as [|c' s IH]; [reflexivity|].
  cbn [PyStr.replace_from]. rewrite prefix_one.
  destruct (Ascii.eqb c c') eqn:E.
  - cbn [String.length Nat.sub]. rewrite mem_char_append, Hn, IH. reflexivity.
  - cbn [PyStr.mem_char]. rewrite E, IH. reflexivity.
Qed.

(** X11.  The flat transcript holds no line break, whatever the texts of
    the records. *)
Theorem transcript_has_no_line_break (parsed_captions : list caption) :
  PyStr.mem_char "010" (concatenate parsed_captions) = false.
Proof.
  unfold concatenate, PyStr.newline. apply replace_char_gone. reflexivity.
Qed.

(** A text that begins like [p] after a replacement began like [p]
    before it, when no character of [p] is the first one of [new]. *)
Lemma prefix_of_replaced p old n new s :
  PyStr.mem_char n p = false ->
  prefix p (PyStr.replace_from old (String n new) 0 s) = true ->
  prefix p s = true.
Proof.
  revert s. induction p as [|a p IH]; intros s Hn H.
  - destruct s; reflexivity.
  - cbn [PyStr.mem_char] in Hn. apply orb_false_iff in Hn as [Hna Hnp].
    destruct s as [|c s]; [cbn in H; discriminate|].
    cbn [PyStr.replace_from] in H.
    destruct (prefix old (String c s)).
    + cbn [String.append prefix] in H.
      destruct (ascii_dec a n) as [->|]; [|discriminate].
      rewrite Ascii.eqb_refl in Hna. discriminate.
    + cbn [prefix] in H |- *.
      destruct (ascii_dec a c); [|discriminate].
      apply IH; assumption.
Qed.

Lemma occurs_cons old c s :
  occurs old (String c s) = prefix old (String c s) || occurs old s.
Proof. reflexivity. Qed.

Lemma occurs_nonempty_nil a old : occurs (String a old) EmptyString = false.
Proof. reflexivity. Qed.

Lemma occurs_past_new a p new rest :
  PyStr.mem_char a new = false ->
  occurs (String a p) (new ++ rest) = occurs (String a p) rest.
Proof.
  induction new as [|c new IH]; [reflexivity|].
  cbn [PyStr.mem_char]. intro H. apply orb_false_iff in H as [Hc Hn].
  cbn [String.append]. rewrite occurs_cons, (prefix_other_char a p c _ Hc).
  exact (IH Hn).
Qed.

(** After [s.replace(old, new)] no [old] is left, when [new] does not hold
    the first character of [old] and [old] does not hold the first one of
    [new]. *)
Lemma replaced_is_gone a old n new s :
  PyStr.mem_char a (String n new) = false ->
  PyStr.mem_char n (String a old) = false ->
  forall k,
    occurs (String a old) (PyStr.replace_from (String a old) (String n new) k s)
    = false.
Proof.
  intros Ha Hn. induction s as [|c s IH]; intro k; [reflexivity|].
  cbn [PyStr.replace_from]. destruct k as [|k]; [|apply IH].
  destruct (prefix (String a old) (String c s)) eqn:Hp.
  - rewrite (occurs_past_new a old (String n new) _ Ha). apply IH.
  - rewrite occurs_cons, IH, orb_false_r.
    destruct (prefix (String a old)
                (String c (PyStr.replace_from (String a old) (String n new) 0 s)))
      eqn:Hq; [|reflexivity].
    rewrite <- Hp. symmetry.
    apply (prefix_of_replaced (String a old) (String a old) n new (String c s) Hn).
    cbn [PyStr.replace_from]. rewrite Hp. exact Hq.
Qed.

(** Replacing one character by [new] brings no [p] in, under the same two
    conditions on [p] and [new]. *)
Lemma replace_char_keeps_absent a p c0 n new t :
  PyStr.mem_char a (String n new) = false ->
  PyStr.mem_char n (String a p) = false ->
  occurs (String a p) t = false ->
  occurs (String a p)
    (PyStr.replace_from (String c0 EmptyString) (String n new) 0 t) = false.
Proof.
  intros Ha Hn. induction t as [|c t IH]; [reflexivity|].
  rewrite occurs_cons. intro H. apply orb_false_iff in H as [Hp Ho].
  cbn [PyStr.replace_from].
  destruct (prefix (String c0 EmptyString) (String c t)) eqn:Hc.
  - cbn [String.length Nat.sub].
    rewrite (occurs_past_new a p (String n new) _ Ha). exact (IH Ho).
  - rewrite occurs_cons, (IH Ho), orb_false_r.
    destruct (prefix (String a p)
                (String c (PyStr.replace_from (String c0 EmptyString)
                             (String n new) 0 t)))
      eqn:Hq; [|reflexivity].
    rewrite <- Hp. symmetry.
    apply (prefix_of_replaced (String a p) (String c0 EmptyString) n new
             (String c t) Hn).
    cbn [PyStr.replace_from]. rewrite Hc. exact Hq.
Qed.

(** X12.  The flat transcript holds no [&#39;], whatever the texts of the
    records: every one is replaced, and neither replacement brings one
    back. *)
Theorem transcript_has_no_entity (parsed_captions : list caption) :
  occurs "&#39;" (concatenate parsed_captions) = false.
Proof.
  unfold concatenate, PyStr.newline, PyStr.replace.
  apply replace_char_keeps_absent; [reflexivity|reflexivity|].
  apply replaced_is_gone; reflexivity.
Qed.

(** ** What parsing and extraction look at *)

(** X13.  Only the [text] children of the root make records: a child with
    another tag, with whatever it contains, changes nothing, and neither do
    the tag, the attributes and the text of the root. *)
Theorem other_elements_ignored (w : world) (t t' : string)
    (a a' : list (string * string)) (x x' : option string)
    (l1 l2 : list element) (c : element) :
  tag c <> "text"%string ->
  parse_captions w (Element t a x (l1 ++ c :: l2))
  = parse_captions w (Element t' a' x' (l1 ++ l2)).
Proof.
  intro H. unfold parse_captions, findall. cbn [children].
  rewrite !filter_app. cbn [filter].
  destruct (String.eqb_spec (tag c) "text"); [contradiction|reflexivity].
Qed.

Lemma other_elements_ignored_witness :
  parse_captions Sample.w
    (Element "transcript" [] None
       ([Element "text" [("start", "0.5")] (Some "Hello") []]
          ++ Element "note" [] None [Element "text" [("start", "soon")] None []]
          :: [Element "text" [("dur", "3")] None []]))
  = parse_captions Sample.w
      (Element "timedtext" [("format", "3")] (Some " ")
         ([Element "text" [("start", "0.5")] (Some "Hello") []]
            ++ [Element "text" [("dur", "3")] None []])).
Proof.
  apply (other_elements_ignored Sample.w). discriminate.
Defined.

(** X14.  Of several thumbnails the last one is used: when the list under
    [videoDetails.thumbnail.thumbnails] ends in an entry with a [url], that
    [url] is the [thumbnail] of the answer, whatever comes before it. *)
Theorem last_thumbnail_used (player_data : pyval) (l : list pyval)
    (x u : pyval) :
  well_shaped player_data = true ->
  child (sub (sub player_data "videoDetails") "thumbnail") "thumbnails"
    = Some (PList (l ++ [x])) ->
  Py.getitem x "url" = Ok u ->
  exists meta captions,
    extract_metadata player_data = Ok (meta, captions) /\
    thumbnail meta = u.
Proof.
  intros Hw Hc Hx. rewrite (extract_metadata_well_shaped player_data Hw).
  eexists _, _. split; [reflexivity|].
  cbn [thumbnail]. rewrite Hc. unfold thumbnail_of, last_entry_url.
  replace (Py.truthy (PList (l ++ [x]))) with true by (destruct l; reflexivity).
  rewrite rev_unit.
  destruct x; try discriminate.
  cbn [Py.getitem] in Hx. destruct (Py.assoc "url" d); [|discriminate].
  injection Hx as <-. reflexivity.
Qed.

Lemma last_thumbnail_used_witness :
  exists meta captions,
    extract_metadata Sample.player_data = Ok (meta, captions) /\
    thumbnail meta = PStr "https://i.ytimg.com/large.jpg".
Proof.
  apply (last_thumbnail_used Sample.player_data
           [Sample.thumb "https://i.ytimg.com/small.jpg" 120]
           (Sample.thumb "https://i.ytimg.com/large.jpg" 640));
    reflexivity.
Defined.

(** X15.  A player response without [videoDetails] gives the four
    defaults, whatever else it holds, and its caption tracks all the
    same. *)
Theorem defaults_without_video_details (d : list (string * pyval)) :
  Py.assoc "videoDetails" d = None ->
  well_shaped (PDict d) = true ->
  extract_metadata (PDict d)
  = Ok ({| video_title := PStr "Unknown Title";
           thumbnail := PStr "No Thumbnail Available";
           channel_name := PStr "Unknown Channel";
           channel_logo := PStr "No Channel Logo Available" |},
        pick (child (sub (sub (PDict d) "captions")
                       "playerCaptionsTracklistRenderer") "captionTracks")
          (PList [])).
Proof.
  intros Hn Hw. rewrite (extract_metadata_well_shaped (PDict d) Hw).
  unfold expected_metadata, channel_renderer. cbv zeta.
  replace (sub (PDict d) "videoDetails") with (PDict [])
    by (unfold sub, child; rewrite Hn; reflexivity).
  reflexivity.
Qed.

Lemma defaults_without_video_details_witness :
  extract_metadata bare_tracks
  = Ok ({| video_title := PStr "Unknown Title";
           thumbnail := PStr "No Thumbnail Available";
           channel_name := PStr "Unknown Channel";
           channel_logo := PStr "No Channel Logo Available" |},
        PList [Sample.track "en" "English" Sample.en_url]).
Proof.
  apply (defaults_without_video_details
           [("captions",
             PDict [("playerCaptionsTracklistRenderer",
                     PDict [("captionTracks",
                             PList [Sample.track "en" "English" Sample.en_url])])])]);
    reflexivity.
Defined.

(** ** Parameters that do not matter *)

Lemma try_without_language w video_id l1 l2 ts1 ts2 g :
  opt_truthy l1 = false ->
  opt_truthy l2 = false ->
  get_captions_try w video_id l1 ts1 g = get_captions_try w video_id l2 ts2 g.
Proof.
  intros H1 H2. unfold get_captions_try. rewrite H1, H2. cbn [negb].
  repeat (apply bind_ext; intros).
  destruct (negb (Py.truthy (snd a1))); reflexivity.
Qed.

(** X16.  Without a language, [timestamps] has no effect: two requests
    with the same [video_id] and no language, or an empty one, get the same
    answer and make the same calls, whatever their other parameters. *)
Theorem timestamps_ignored_without_language (w : world) (g : globals)
    (req1 req2 : request) :
  args_get req1 "video_id" = args_get req2 "video_id" ->
  opt_truthy (args_get req1 "language") = false ->
  opt_truthy (args_get req2 "language") = false ->
  get_captions w req1 g = get_captions w req2 g.
Proof.
  intros Hv H1 H2. unfold get_captions. rewrite <- Hv.
  destruct (negb (opt_truthy (args_get req1 "video_id"))); [reflexivity|].
  unfold try_except.
  rewrite (try_without_language w _ _ _ (timestamps_flag req1)
             (timestamps_flag req2) g H1 H2).
  reflexivity.
Qed.

Lemma timestamps_ignored_without_language_witness :
  get_captions Sample.w
    (Sample.captions_request Sample.key [("video_id", "abc"); ("timestamps", "true")])
    Sample.g
  = get_captions Sample.w
      (Sample.captions_request [] [("language", ""); ("video_id", "abc")])
      Sample.g.
Proof.
  apply (timestamps_ignored_without_language Sample.w Sample.g); reflexivity.
Defined.

(** ** Status 500 *)

Lemma try_status w video_id selected_language timestamps g :
  match get_captions_try w video_id selected_language timestamps g with
  | (Ok r, _, _) => status r = 200 \/ status r = 404
  | (Raise _, _, _) => True
  end.
Proof.
  unfold get_captions_try. walk.
  all: try exact I.
  all: try (destruct timestamps).
  all: cbn [status jsonify]; auto.
Qed.

(** X17.  Status 500 is only ever the answer to an exception: when
    [get_captions] answers 500, the request had a non-empty [video_id], a
    step of the [try] block raised, and the body is [{'error': str(e)}] for
    the exception raised.  With C8 this gives both directions. *)
Theorem status_500_reports_exception (w : world) (req : request) (g : globals)
    (r : response) :
  fst (fst (get_captions w req g)) = Ok r ->
  status r = 500 ->
  exists video_id e g' t,
    args_get req "video_id" = Some video_id /\
    video_id <> ""%string /\
    get_captions_try w video_id (args_get req "language") (timestamps_flag req) g
      = (Raise e, g', t) /\
    r = jsonify [("error", PStr (exc_str e))] 500.
Proof.
  unfold get_captions.
  destruct (args_get req "video_id") as [[|c s]|] eqn:Hv;
    cbn [opt_truthy PyStr.nonempty negb opt_text fst ret].
  - intro H. injection H as <-. discriminate.
  - unfold try_except.
    pose proof (try_status w (String c s) (args_get req "language")
                  (timestamps_flag req) g) as Hs.
    destruct (get_captions_try _ _ _ _ g) as [[[r0|e] g1] t1] eqn:Ht;
      cbn [fst].
    + intro H. injection H as <-. intro H5.
      destruct Hs as [Hs|Hs]; rewrite Hs in H5; discriminate.
    + intro H. injection H as <-. intros _.
      exists (String c s), e, g1, t1.
      split; [reflexivity|]. split; [discriminate|].
      split; [exact Ht|reflexivity].
  - intro H. injection H as <-. discriminate.
Qed.

Lemma status_500_reports_exception_witness :
  exists video_id e g' t,
    args_get (Sample.captions_request Sample.key
                [("video_id", "abc"); ("language", "en")]) "video_id"
      = Some video_id /\
    video_id <> ""%string /\
    get_captions_try Sample.w_offline video_id
      (args_get (Sample.captions_request Sample.key
                   [("video_id", "abc"); ("language", "en")]) "language")
      (timestamps_flag (Sample.captions_request Sample.key
                          [("video_id", "abc"); ("language", "en")]))
      Sample.g
      = (Raise e, g', t) /\
    jsonify [("error", PStr "Connection aborted.")] 500
      = jsonify [("error", PStr (exc_str e))] 500.
Proof.
  apply (status_500_reports_exception Sample.w_offline
           (Sample.captions_request Sample.key
              [("video_id", "abc"); ("language", "en")])
           Sample.g (jsonify [("error", PStr "Connection aborted.")] 500));
    reflexivity.
Defined.

(** ** Methods *)

(** X18.  The two routes are registered for GET only: a POST, PUT, DELETE
    or PATCH of [/] or [/captions] with the right key is answered 405, and
    no view function runs. *)
Theorem other_methods_405 (w : world) (g : globals) (req : request) :
  headers_get (headers req) "x-api-key" = API_KEY g ->
  path req = "/"%string \/ path req = "/captions"%string ->
  In (method req) [POST; PUT; DELETE; PATCH] ->
  serve w g req = ({| body := ErrorPage; status := 405 |}, g, []).
Proof.
  intros Hk Hp Hm. unfold serve, sent.
  rewrite full_dispatch_valid by (apply option_string_eqb_eq; exact Hk).
  unfold dispatch_request, match_request.
  destruct Hp as [-> | ->];
    cbn in Hm; destruct Hm as [<-|[<-|[<-|[<-|[]]]]]; reflexivity.
Qed.

Lemma other_methods_405_witness :
  serve Sample.w Sample.g
    {| method := POST; path := "/captions"; headers := Sample.key;
       args := [("video_id", "abc")] |}
  = ({| body := ErrorPage; status := 405 |}, Sample.g, []).
Proof.
  apply (other_methods_405 Sample.w Sample.g
           {| method := POST; path := "/captions"; headers := Sample.key;
              args := [("video_id", "abc")] |}).
  - reflexivity.
  - right. reflexivity.
  - left. reflexivity.
Defined.
